(** * mod-bot: session/OAuth glue and the guild setup command

    A shallow embedding of
      - [src/packages/web/app/models/session.server.ts]
      - [src/app/commands/setup.ts]
    and the properties stated about them.

    Async functions are embedded in a state-and-exception monad: a
    computation takes the world (database tables, the state of the
    collaborating modules, a trace of collaborator calls) and yields either
    a returned value or a thrown value, together with the world it leaves
    behind. A thrown value does not roll the world back, as in JavaScript. *)

From Stdlib Require Import ZArith NArith Ascii String.
From stdpp Require Import base option list strings pretty gmap.

Local Open Scope string_scope.
Local Open Scope Z_scope.

(** ** JavaScript values

    The values that flow through the two modules are strings, [undefined]
    and [null] (the declared types are [string | undefined] for session
    reads and [string | null] for [URLSearchParams.get]). *)

Inductive jsval : Type :=
  | JUndefined
  | JNull
  | JStr (s : string).

#[global] Instance jsval_eq_dec : EqDecision jsval.
Proof. solve_decision. Defined.

(** [!v] is [negb (truthy v)]: [undefined], [null] and the empty string are
    falsy. *)
Definition truthy (v : jsval) : bool :=
  match v with
  | JStr s => negb (String.eqb s "")
  | JUndefined | JNull => false
  end.

(** [a !== b]: strict inequality; [undefined !== null] holds. *)
Definition strict_neq (a b : jsval) : bool := bool_decide (a ≠ b).

(** ** Errors and responses *)

(** A JavaScript [Error] instance. *)
Record Error : Type := mkError { err_name : string; err_message : string }.

(** [new Error(msg)] *)
Definition new_Error (msg : string) : Error :=
  {| err_name := "Error"; err_message := msg |}.

(** [Error.prototype.toString] *)
Definition Error_toString (e : Error) : string :=
  if String.eqb (err_name e) "" then err_message e
  else if String.eqb (err_message e) "" then err_name e
  else err_name e +:+ ": " +:+ err_message e.

(** The value of a cookie as the framework serializes it: the cookie session
    carries the session data itself, the database session carries the row
    id, and a destroyed session carries the empty string. Signing and
    encoding are the framework's and are not modelled. *)
Inductive cookie_value : Type :=
  | CookieData (d : gmap string jsval)
  | CookieString (s : string).

(** A serialized [Set-Cookie] header value: name, value and the two
    attributes the module sets ([Max-Age] in seconds, [Expires] in
    milliseconds since the epoch). *)
Record SetCookie : Type := mkSetCookie {
  sc_name : string;
  sc_value : cookie_value;
  sc_maxAge : option Z;
  sc_expires : option Z
}.

Inductive header : Type :=
  | Set_Cookie (c : SetCookie)
  | Location (url : string)
  | Content_Type (t : string).

(** The body of a response: none, a text, or [JSON.stringify] of an object
    with string fields. *)
Inductive body : Type :=
  | NoBody
  | TextBody (t : string)
  | JsonBody (fields : list (string * string)).

Record Response : Type := mkResponse {
  status : Z;
  headers : list header;
  resp_body : body
}.

(** [redirect(url, init)]: [init] is a status or a set of headers; the
    default status is 302 and [Location] is set on top of the headers. *)
Definition redirect (url : string) (st : Z) (hs : list header) : Response :=
  {| status := st; headers := hs ++ [Location url]; resp_body := NoBody |}.

(** [json(data, status)] *)
Definition json (fields : list (string * string)) (st : Z) : Response :=
  {| status := st;
     headers := [Content_Type "application/json; charset=utf-8"];
     resp_body := JsonBody fields |}.

(** What a [throw] can carry: a [Response] (the framework's way of leaving a
    loader early), an [Error] instance, or any other value. *)
Inductive thrown : Type :=
  | ThrownResponse (r : Response)
  | ThrownError (e : Error)
  | ThrownValue (v : jsval).

(** ** The monad *)

Inductive outcome (A : Type) : Type :=
  | Return (a : A)
  | Throw (e : thrown).
Arguments Return {A} a.
Arguments Throw {A} e.

Definition is_Return {A} (o : outcome A) : bool :=
  match o with Return _ => true | Throw _ => false end.

Definition M (W A : Type) : Type := W → outcome A * W.

#[global] Instance M_ret {W} : MRet (M W) := λ A a w, (Return a, w).

#[global] Instance M_bind {W} : MBind (M W) := λ A B k m w,
  match m w with
  | (Return a, w') => k a w'
  | (Throw e, w') => (Throw e, w')
  end.

(** [throw e] *)
Definition throw {W A} (e : thrown) : M W A := λ w, (Throw e, w).

(** [try { m } catch (e) { h e }] *)
Definition try_catch {W A} (m : M W A) (h : thrown → M W A) : M W A :=
  λ w, match m w with
       | (Return a, w') => (Return a, w')
       | (Throw e, w') => h e w'
       end.

Definition get_world {W} : M W W := λ w, (Return w, w).
Definition modify_world {W} (f : W → W) : M W unit := λ w, (Return tt, f w).

(** ** Requests *)

(** What the framework's [cookie.parse] finds in a [Cookie] header for the
    two cookies of this module: the verified payload of [__client-session]
    (absent when the cookie is missing, empty or fails its signature) and
    the value of [__session] (the id of a row of the [sessions] table). *)
Record CookieHeader : Type := mkCookieHeader {
  client_session_cookie : option (gmap string jsval);
  db_session_cookie : option string
}.

Record Request : Type := mkRequest {
  url_pathname : string;
  url_searchParams : list (string * string);
  header_Cookie : option CookieHeader
}.

(** [url.searchParams.get(name)]: the first value, or [null]. *)
Definition searchParams_get (name : string) (q : list (string * string)) : jsval :=
  match List.find (λ kv, String.eqb kv.1 name) q with
  | Some kv => JStr kv.2
  | None => JNull
  end.

(** *** [URLSearchParams.prototype.toString]

    The application/x-www-form-urlencoded serializer: ASCII letters and
    digits and [*-._] stay, a space becomes [+], every other byte becomes
    [%XX]. Strings are sequences of (UTF-8) bytes. *)
Definition hex_digit (n : N) : ascii :=
  match String.get (N.to_nat n) "0123456789ABCDEF" with
  | Some c => c
  | None => "0"%char
  end.

Definition form_unreserved (c : ascii) : bool :=
  let n := N_of_ascii c in
  ((48 <=? n) && (n <=? 57) || (65 <=? n) && (n <=? 90)
   || (97 <=? n) && (n <=? 122)
   || (n =? 42) || (n =? 45) || (n =? 46) || (n =? 95))%N.

Definition form_encode_byte (c : ascii) : string :=
  if form_unreserved c then String c ""
  else if (N_of_ascii c =? 32)%N then "+"
  else String "%"%char
         (String (hex_digit (N_of_ascii c / 16))
            (String (hex_digit (N_of_ascii c mod 16)) "")).

Fixpoint form_encode (s : string) : string :=
  match s with
  | EmptyString => ""
  | String c s' => form_encode_byte c +:+ form_encode s'
  end.

Fixpoint URLSearchParams_toString (q : list (string * string)) : string :=
  match q with
  | [] => ""
  | [(k, v)] => form_encode k +:+ "=" +:+ form_encode v
  | (k, v) :: q' =>
      form_encode k +:+ "=" +:+ form_encode v +:+ "&" +:+ URLSearchParams_toString q'
  end.

(** The matching parser of a serialized name or value: [+] is a space and
    [%XX] is the byte with that hexadecimal code. *)
Definition hex_value (c : ascii) : option N :=
  let n := N_of_ascii c in
  if ((48 <=? n) && (n <=? 57))%N then Some (n - 48)%N
  else if ((65 <=? n) && (n <=? 70))%N then Some (n - 55)%N
  else if ((97 <=? n) && (n <=? 102))%N then Some (n - 87)%N
  else None.

Fixpoint form_decode (s : string) : string :=
  match s with
  | EmptyString => EmptyString
  | String c s' =>
      if (N_of_ascii c =? 43)%N then String " "%char (form_decode s')
      else if (N_of_ascii c =? 37)%N then
        match s' with
        | String h (String l s'') =>
            match hex_value h, hex_value l with
            | Some a, Some b => String (ascii_of_N (16 * a + b)) (form_decode s'')
            | _, _ => String c (form_decode s')
            end
        | _ => String c (form_decode s')
        end
      else String c (form_decode s')
  end.

(** Whether every character of a string passes a test. *)
Fixpoint string_forall (P : ascii → bool) (s : string) : bool :=
  match s with
  | EmptyString => true
  | String c s' => P c && string_forall P s'
  end.

(** The characters a serialized name or value is made of: the unreserved
    ones, [+] and [%]. *)
Definition form_safe (c : ascii) : bool :=
  form_unreserved c || (N_of_ascii c =? 43)%N || (N_of_ascii c =? 37)%N.

(** ** The framework's session object ([createSession])

    A string id and a [Map] from names to values. [get] falls back to the
    flash entry of the name and consumes it. *)
Record RemixSession : Type := mkRemixSession {
  session_id : string;
  session_data : gmap string jsval
}.

Definition createSession (initialData : gmap string jsval) (id : string) : RemixSession :=
  {| session_id := id; session_data := initialData |}.

Definition flash (name : string) : string := "__flash_" +:+ name +:+ "__".

Definition session_get (name : string) (s : RemixSession) : jsval * RemixSession :=
  match session_data s !! name with
  | Some v => (v, s)
  | None =>
      match session_data s !! flash name with
      | Some v => (v, createSession (delete (flash name) (session_data s)) (session_id s))
      | None => (JUndefined, s)
      end
  end.

Definition session_set (name : string) (v : jsval) (s : RemixSession) : RemixSession :=
  createSession (<[name := v]> (session_data s)) (session_id s).

Definition session_unset (name : string) (s : RemixSession) : RemixSession :=
  createSession (delete name (session_data s)) (session_id s).

(** ** The [sessions] table and the collaborating modules *)

(** [interface Session]: a row of the [sessions] table. *)
Record Session : Type := mkSession {
  row_id : string;
  row_data : option string;
  row_expires : option string
}.

(** [User] of [~/models/user.server] and the profile that [fetchUser] of
    [~/models/discordOauth2.server] resolves to, as far as this module
    reads them. *)
Record User : Type := mkUser {
  user_id : string;
  user_email : string;
  user_externalId : string
}.

Record DiscordUser : Type := mkDiscordUser {
  discord_id : string;
  discord_email : string
}.

(** The modules this file imports and that are its environment: the user
    model, the OAuth client ([authUrl] takes the redirect target and the
    state), [crypto.randomUUID], [JSON.stringify] and the expiry the
    framework hands to [createData]/[updateData] for a given [maxAge]. [B] is the state they work on (the user table, the identity
    provider, the clock and the entropy), [Token] the OAuth token. Each
    effectful one may return or throw, and may change [B]. *)
Class Env (B Token : Type) : Type := {
  fetchToken : M B Token;
  fetchUser : Token → M B DiscordUser;
  getUserById : jsval → M B (option User);
  getUserByExternalId : string → M B (option User);
  createUser : string → string → M B jsval;
  authUrl : string → string → string;
  randomUUID : B → string * B;
  commit_expires : option Z → B → option string;
  JSON_stringify : gmap string jsval → string;
  JSON_stringify_token : Token → string
}.

(** The calls made to the collaborating modules, in order. *)
Inductive call : Type :=
  | Call_fetchToken
  | Call_fetchUser
  | Call_getUserById (id : jsval)
  | Call_getUserByExternalId (externalId : string)
  | Call_createUser (email externalId : string).

#[global] Instance call_eq_dec : EqDecision call.
Proof. solve_decision. Defined.

Record World (B : Type) : Type := mkWorld {
  backend : B;
  sessions : list Session;
  calls : list call
}.
Arguments mkWorld {B} _ _ _.
Arguments backend {B} _.
Arguments sessions {B} _.
Arguments calls {B} _.

(** ** [session.server.ts] *)

Section SessionServer.
Context {B Token : Type} `{!Env B Token}.

Local Abbreviation W := (World B).

(** A call into a collaborating module: it runs on the backend and is
    recorded in the trace. *)
Definition collaborator {A} (c : call) (m : M B A) : M W A :=
  λ w, let '(o, b') := m (backend w) in
       (o, mkWorld b' (sessions w) (calls w ++ [c])).

(** *** The cookie session storage ([createCookieSessionStorage])

    The cookie is named [__client-session] and has [maxAge: 0] unless a
    call overrides it. Reading never touches the world. *)
Definition getCookieSession (cookieHeader : option CookieHeader) : RemixSession :=
  createSession (default ∅ (cookieHeader ≫= client_session_cookie)) "".

Definition commitCookieSession (s : RemixSession) (maxAge : option Z) : SetCookie :=
  {| sc_name := "__client-session";
     sc_value := CookieData (session_data s);
     sc_maxAge := Some (default 0 maxAge);
     sc_expires := None |}.

Definition destroyCookieSession (s : RemixSession) : SetCookie :=
  {| sc_name := "__client-session";
     sc_value := CookieString "";
     sc_maxAge := Some 0;
     sc_expires := Some 0 |}.

(** *** The database session storage ([createSessionStorage])

    The four callbacks are the source's; [expires] is the text of
    [expires?.toString()]. *)
Definition draw_uuid : M W string :=
  λ w, let '(id, b') := randomUUID (backend w) in
       (Return id, mkWorld b' (sessions w) (calls w)).

(** [insert({ id: randomUUID(), data, expires }, ["id"])], then
    [result[0].id]. *)
Definition createData (data : gmap string jsval) (expires : option string) : M W string :=
  id ← draw_uuid;
  modify_world (λ w,
    mkWorld (backend w)
      (sessions w ++ [mkSession id (Some (JSON_stringify data)) expires])
      (calls w));;
  mret id.

(** [select().where({ id }).first()], then [result || null]. *)
Definition readData (id : string) : M W (option Session) :=
  λ w, (Return (List.find (λ r, String.eqb (row_id r) id) (sessions w)), w).

(** [update({ data, expires }).where({ id })]; the query builder leaves a
    column alone when its new value is [undefined]. *)
Definition updateData (id : string) (data : gmap string jsval)
    (expires : option string) : M W unit :=
  modify_world (λ w,
    mkWorld (backend w)
      (List.map (λ r,
         if String.eqb (row_id r) id
         then mkSession (row_id r) (Some (JSON_stringify data))
                (match expires with Some e => Some e | None => row_expires r end)
         else r) (sessions w))
      (calls w)).

(** [delete().where({ id })] *)
Definition deleteData (id : string) : M W unit :=
  modify_world (λ w,
    mkWorld (backend w)
      (List.filter (λ r, negb (String.eqb (row_id r) id)) (sessions w))
      (calls w)).

(** [Object.entries] of a row as [readData] returns it; a column that is
    NULL reads as [null]. *)
Definition row_entries (r : Session) : gmap string jsval :=
  <["id" := JStr (row_id r)]>
    (<["data" := from_option JStr JNull (row_data r)]>
       (<["expires" := from_option JStr JNull (row_expires r)]> ∅)).

(** [getSession]: [id = cookieHeader && parse(cookieHeader)],
    [data = id && readData(id)], [createSession(data || {}, id || "")]. *)
Definition getDbSession (cookieHeader : option CookieHeader) : M W RemixSession :=
  match cookieHeader ≫= db_session_cookie with
  | Some id =>
      if String.eqb id "" then mret (createSession ∅ "")
      else
        data ← readData id;
        mret (createSession (from_option row_entries ∅ data) id)
  | None => mret (createSession ∅ "")
  end.

(** [commitSession]: update the row of a session that has an id, create a
    row otherwise, and serialize the id. *)
Definition commitDbSession (s : RemixSession) (maxAge : option Z) : M W SetCookie :=
  w ← get_world;
  let expires := commit_expires maxAge (backend w) in
  id ← (if String.eqb (session_id s) ""
        then createData (session_data s) expires
        else updateData (session_id s) (session_data s) expires;;
             mret (session_id s));
  mret {| sc_name := "__session";
          sc_value := CookieString id;
          sc_maxAge := maxAge;
          sc_expires := None |}.

(** [destroySession]: delete the row, serialize an expired empty cookie. *)
Definition destroyDbSession (s : RemixSession) : M W SetCookie :=
  deleteData (session_id s);;
  mret {| sc_name := "__session";
          sc_value := CookieString "";
          sc_maxAge := None;
          sc_expires := Some 0 |}.

(** *** The exported functions *)

Definition USER_SESSION_KEY : string := "userId".

Definition getUserId (request : Request) : M W jsval :=
  let session := getCookieSession (header_Cookie request) in
  let userId := (session_get USER_SESSION_KEY session).1 in
  mret userId.

Definition logout (request : Request) : M W Response :=
  let cookieSession := getCookieSession (header_Cookie request) in
  dbSession ← getDbSession (header_Cookie request);
  let cookie := destroyCookieSession cookieSession in
  dbCookie ← destroyDbSession dbSession;
  mret (redirect "/" 302 [Set_Cookie cookie; Set_Cookie dbCookie]).

Definition getUser (request : Request) : M W (option User) :=
  userId ← getUserId request;
  if bool_decide (userId = JUndefined) then mret None
  else
    user ← collaborator (Call_getUserById userId) (getUserById userId);
    match user with
    | Some u => mret (Some u)
    | None => r ← logout request; throw (ThrownResponse r)
    end.

Definition initOauthLogin (request : Request) (redirectTo : string) : M W Response :=
  dbSession ← getDbSession (header_Cookie request);
  state ← draw_uuid;
  let dbSession := session_set "state" (JStr state) dbSession in
  cookie ← commitDbSession dbSession (Some (60 * 60 * 1));
  mret (redirect (authUrl redirectTo state) 302 [Set_Cookie cookie]).

(** [redirectTo] defaults to [new URL(request.url).pathname]. *)
Definition requireUserId (request : Request) (redirectTo : option string) : M W jsval :=
  let redirectTo := default (url_pathname request) redirectTo in
  userId ← getUserId request;
  if negb (truthy userId) then
    let searchParams := [("redirectTo", redirectTo)] in
    throw (ThrownResponse
             (redirect ("/login?" +:+ URLSearchParams_toString searchParams) 302 []))
  else mret userId.

Definition requireUser (request : Request) : M W User :=
  userId ← requireUserId request None;
  user ← collaborator (Call_getUserById userId) (getUserById userId);
  match user with
  | Some u => mret u
  | None => r ← logout request; throw (ThrownResponse r)
  end.

(** Lines 146-161 of [completeOauthLogin]: the token exchange, the profile
    fetch and the resolution of the local user id. An exception of the
    lookup is swallowed; [createUser] is called when no id was found. *)
Definition resolveUserId : M W (Token * jsval) :=
  token ← collaborator Call_fetchToken fetchToken;
  discordUser ← collaborator Call_fetchUser (fetchUser token);
  userId ← try_catch
    (user ← collaborator (Call_getUserByExternalId (discord_id discordUser))
              (getUserByExternalId (discord_id discordUser));
     mret (match user with
           | Some u => JStr (user_id u)
           | None => JUndefined
           end))
    (λ _, mret JUndefined);
  userId ← (if negb (truthy userId)
            then collaborator
                   (Call_createUser (discord_email discordUser) (discord_id discordUser))
                   (createUser (discord_email discordUser) (discord_id discordUser))
            else mret userId);
  mret (token, userId).

(** Lines 178-191: the session writes of a login whose state matched. *)
Definition establishSession (request : Request) (token : Token) (userId : jsval)
    (cookieSession dbSession : RemixSession) : M W Response :=
  let cookieSession := session_set USER_SESSION_KEY userId cookieSession in
  let dbSession := session_unset "state" dbSession in
  let dbSession :=
    session_set "discordToken" (JStr (JSON_stringify_token token)) dbSession in
  let cookie := commitCookieSession cookieSession (Some (60 * 60 * 24 * 7)) in
  dbCookie ← commitDbSession dbSession None;
  mret (redirect "/" 302 [Set_Cookie cookie; Set_Cookie dbCookie]).

Definition completeOauthLogin (request : Request) : M W Response :=
  '(token, userId) ← resolveUserId;
  if negb (truthy userId) then
    throw (ThrownResponse
             (json [("message", "Couldn't find a user or create a new user")] 500))
  else
    let cookieSession := getCookieSession (header_Cookie request) in
    dbSession ← getDbSession (header_Cookie request);
    let state := searchParams_get "state" (url_searchParams request) in
    let '(stored, dbSession) := session_get "state" dbSession in
    if strict_neq stored state then
      throw (ThrownResponse (redirect "/login" 401 []))
    else establishSession request token userId cookieSession dbSession.

End SessionServer.

(** ** [setup.ts] *)

Record Guild : Type := mkGuild { guild_id : string }.
Record Role : Type := mkRole { role_id : string }.
Record Channel : Type := mkChannel { channel_id : string }.

(** [CommandInteraction], as far as the handler reads it: the guild (or
    [null]) and the option resolver's [getRole] and [getChannel]. *)
Record CommandInteraction : Type := mkInteraction {
  guild : option Guild;
  options_getRole : string → option Role;
  options_getChannel : string → option Channel
}.

(** [~/models/guilds.server]: the names of the two settings and the two
    operations on the guild store [G], each of which may throw. *)
Class GuildsServer (G : Type) : Type := {
  SETTINGS_modLog : string;
  SETTINGS_moderator : string;
  registerGuild : Guild → M G unit;
  setSettings : Guild → gmap string string → M G unit
}.

(** The guild store and the replies the interaction has received. *)
Record BotWorld (G : Type) : Type := mkBotWorld {
  guilds : G;
  replies : list string
}.
Arguments mkBotWorld {G} _ _.
Arguments guilds {G} _.
Arguments replies {G} _.

Section Setup.
Context {G : Type} `{!GuildsServer G}.

Definition on_guilds {A} (m : M G A) : M (BotWorld G) A :=
  λ w, let '(o, g') := m (guilds w) in (o, mkBotWorld g' (replies w)).

(** [interaction.reply(text)]; the promise is not awaited. *)
Definition reply (text : string) : M (BotWorld G) unit :=
  modify_world (λ w, mkBotWorld (guilds w) (replies w ++ [text])).

(** The text of the reply in the [catch] block. *)
Definition something_broke (e : Error) : string :=
  "Something broke:
```
" +:+ Error_toString e +:+ "
```
".

(** The [try] block of the handler. *)
Definition handler_try (interaction : CommandInteraction) : M (BotWorld G) unit :=
  match guild interaction with
  | None => throw (ThrownError (new_Error "Interaction has no guild"))
  | Some g =>
      on_guilds (registerGuild g);;
      let role := options_getRole interaction "moderator" in
      let channel := options_getChannel interaction "mod-log-channel" in
      match role with
      | None => throw (ThrownError (new_Error "Interaction has no role"))
      | Some role =>
          match channel with
          | None => throw (ThrownError (new_Error "Interaction has no channel"))
          | Some channel =>
              on_guilds
                (setSettings g
                   (<[SETTINGS_moderator := role_id role]>
                      (<[SETTINGS_modLog := channel_id channel]> ∅)));;
              reply "Setup completed!"
          end
      end
  end.

Definition handler (interaction : CommandInteraction) : M (BotWorld G) unit :=
  try_catch (handler_try interaction)
    (λ e, match e with
          | ThrownError err => reply (something_broke err)
          | ThrownResponse _ | ThrownValue _ => mret tt
          end).

End Setup.

(** ** Models of the collaborating modules *)

(** *** The guild store

    [~/models/guilds.server] ([SETTINGS], [registerGuild], [setSettings]) is
    not among the sources. The store maps a guild id to the settings record
    of the guild. *)
Module GuildStore.

(** Modelled from the spec: [registerGuild] of [~/models/guilds.server],
    which is missing; it registers the guild in the settings store if it is
    not already present. *)
Definition registerGuild (g : Guild) : M (gmap string (gmap string string)) unit :=
  modify_world (λ store,
    match store !! guild_id g with
    | Some _ => store
    | None => <[guild_id g := ∅]> store
    end).

(** Modelled from the spec: [setSettings] of [~/models/guilds.server],
    which is missing; it writes the given settings into the record of the
    guild, overwriting what the record held under their keys. *)
Definition setSettings (g : Guild) (settings : gmap string string)
    : M (gmap string (gmap string string)) unit :=
  modify_world (alter (λ old, settings ∪ old) (guild_id g)).

(** Modelled from the spec: [SETTINGS] of [~/models/guilds.server], which
    is missing; the two recognized setting keys are [modLog] and
    [moderator]. *)
#[global] Instance server : GuildsServer (gmap string (gmap string string)) :=
  Build_GuildsServer _ "modLog" "moderator" registerGuild setSettings.

End GuildStore.

(** *** The site: users, identity provider, entropy and clock

    [~/models/user.server] and [~/models/discordOauth2.server] are not among
    the sources. The properties below hold for every [Env]; this one serves
    the concrete runs. *)
Module Site.

Record Backend : Type := mkBackend {
  users : list User;
  accepts_users : bool;
  provider_token : outcome string;
  provider_profile : outcome DiscordUser;
  entropy : nat;
  clock : Z
}.

Definition uuid (n : nat) : string := "uuid-" +:+ pretty n.

Definition randomUUID (b : Backend) : string * Backend :=
  (uuid (entropy b),
   mkBackend (users b) (accepts_users b) (provider_token b) (provider_profile b)
     (S (entropy b)) (clock b)).

(** Modelled from the spec: [fetchToken] of [~/models/discordOauth2.server],
    which is missing; it exchanges the authorization code for a token at
    the identity provider. *)
Definition fetchToken : M Backend string := λ b, (provider_token b, b).

(** Modelled from the spec: [fetchUser] of [~/models/discordOauth2.server],
    which is missing; it fetches the profile of the remote user. *)
Definition fetchUser (token : string) : M Backend DiscordUser :=
  λ b, (provider_profile b, b).

(** Modelled from the spec: [getUserById] of [~/models/user.server], which
    is missing; it resolves the user an id maps to, if any. *)
Definition getUserById (id : jsval) : M Backend (option User) :=
  λ b, (Return (List.find (λ u, bool_decide (JStr (user_id u) = id)) (users b)), b).

(** Modelled from the spec: [getUserByExternalId] of [~/models/user.server],
    which is missing; it looks up a local user by the external identifier
    of the remote user. *)
Definition getUserByExternalId (externalId : string) : M Backend (option User) :=
  λ b, (Return (List.find (λ u, String.eqb (user_externalId u) externalId) (users b)), b).

(** Modelled from the spec: [createUser] of [~/models/user.server], which is
    missing; it creates a local user for the remote one and resolves to the
    new id, or to no id when the creation fails. *)
Definition createUser (email externalId : string) : M Backend jsval :=
  λ b, if accepts_users b then
         let '(id, b') := randomUUID b in
         (Return (JStr id),
          mkBackend (users b' ++ [mkUser id email externalId]) (accepts_users b')
            (provider_token b') (provider_profile b') (entropy b') (clock b'))
       else (Return JUndefined, b).

(** Modelled from the spec: [authUrl] of [~/models/discordOauth2.server],
    which is missing; the external authorization URL embeds the state and
    the redirect target. *)
Definition authUrl (redirect state : string) : string :=
  "https://discord.com/api/oauth2/authorize?" +:+
  URLSearchParams_toString [("redirect_uri", redirect); ("state", state)].

(** The expiry of a commit: the framework hands the callbacks the
    [expires] of the cookie, which this module does not set, so the column
    stays NULL. *)
Definition commit_expires (maxAge : option Z) (b : Backend) : option string :=
  None.

(** A stand-in for [JSON.stringify] of session data, for the sample runs
    only: special characters inside strings are not escaped, and the keys
    come in the order of the map, not in the order of insertion. No
    property below depends on the text it produces. *)
Definition quoted (s : string) : string :=
  String "034"%char s +:+ String "034"%char "".

Definition JSON_stringify (d : gmap string jsval) : string :=
  "{" +:+ String.concat ","
            (List.flat_map
               (λ kv, match kv.2 with
                      | JStr s => [quoted kv.1 +:+ ":" +:+ quoted s]
                      | JNull => [quoted kv.1 +:+ ":null"]
                      | JUndefined => []
                      end) (map_to_list d)) +:+ "}".

#[global] Instance env : Env Backend string :=
  Build_Env _ _ fetchToken fetchUser getUserById getUserByExternalId createUser
    authUrl randomUUID commit_expires JSON_stringify quoted.

End Site.

(** ** [refreshSession]

    [parseToken] and the [refresh] method of the token it returns come from
    [~/models/discordOauth2.server]; they are the environment of
    [refreshSession] alone. [parseToken] is called synchronously on what the
    session holds under [discordToken]. *)
Class TokenClient (B Token : Type) : Type := {
  parseToken : jsval → outcome Token;
  token_refresh : Token → M B Token
}.

Section RefreshSession.
Context {B Token : Type} `{!Env B Token} `{!TokenClient B Token}.

(** An awaited call that runs on the backend alone. *)
Definition on_backend {A} (m : M B A) : M (World B) A :=
  λ w, let '(o, b') := m (backend w) in (o, mkWorld b' (sessions w) (calls w)).

(** [new Response("OK", { headers: { "Set-Cookie": cookie } })]; a text body
    brings its content type. *)
Definition ok_response (cookie : SetCookie) : Response :=
  {| status := 200;
     headers := [Set_Cookie cookie; Content_Type "text/plain;charset=UTF-8"];
     resp_body := TextBody "OK" |}.

Definition refreshSession (request : Request) : M (World B) Response :=
  dbSession ← getDbSession (header_Cookie request);
  let '(storedToken, dbSession) := session_get "discordToken" dbSession in
  match parseToken storedToken with
  | Throw e => throw e
  | Return token =>
      newToken ← on_backend (token_refresh token);
      let dbSession :=
        session_set "discordToken" (JStr (JSON_stringify_token newToken)) dbSession in
      cookie ← commitDbSession dbSession None;
      mret (ok_response cookie)
  end.

End RefreshSession.

(** *** A site whose user table cannot be reached for lookups

    As [Site], except that the two lookups throw. *)
Module Outage.

Definition unreachable : Error := new_Error "connect ECONNREFUSED".

Definition getUserByExternalId (externalId : string) : M Site.Backend (option User) :=
  throw (ThrownError unreachable).

Definition getUserById (id : jsval) : M Site.Backend (option User) :=
  throw (ThrownError unreachable).

Definition env : Env Site.Backend string :=
  Build_Env _ _ Site.fetchToken Site.fetchUser getUserById getUserByExternalId
    Site.createUser Site.authUrl Site.randomUUID Site.commit_expires
    Site.JSON_stringify Site.quoted.

End Outage.

(** *** A site whose user table cannot be written

    As [Site], except that [createUser] throws. *)
Module ReadOnly.

Definition refused : Error := new_Error "attempt to write a readonly database".

Definition createUser (email externalId : string) : M Site.Backend jsval :=
  throw (ThrownError refused).

Definition env : Env Site.Backend string :=
  Build_Env _ _ Site.fetchToken Site.fetchUser Site.getUserById
    Site.getUserByExternalId createUser Site.authUrl Site.randomUUID
    Site.commit_expires Site.JSON_stringify Site.quoted.

End ReadOnly.

(** *** A token client that accepts only stored token texts

    [parseToken] throws on anything that is not a string; [refresh] appends
    a mark to the token. *)
Module Tokens.

Definition parseToken (stored : jsval) : outcome string :=
  match stored with
  | JStr s => Return s
  | JUndefined | JNull => Throw (ThrownError (mkError "SyntaxError" "Unexpected token u in JSON"))
  end.

Definition refresh (token : string) : M Site.Backend string :=
  mret (token +:+ "+").

#[global] Instance client : TokenClient Site.Backend string :=
  Build_TokenClient _ _ parseToken refresh.

(** A token client whose [parseToken] makes an empty token of anything that
    is not a string. *)
Definition lenient : TokenClient Site.Backend string :=
  Build_TokenClient _ _
    (λ stored, match stored with JStr s => Return s | _ => Return "" end) refresh.

End Tokens.

(** What the [catch] block of the setup handler adds to the replies for a
    thrown value: the text for an [Error] instance, nothing otherwise. *)
Definition caught_reply (t : thrown) : list string :=
  match t with
  | ThrownError err => [something_broke err]
  | ThrownResponse _ | ThrownValue _ => []
  end.

(** *** A guild store that is busy

    As [GuildStore], except that [setSettings] rejects with a value that is
    not an [Error] instance. *)
Module Busy.

Definition setSettings (g : Guild) (settings : gmap string string)
    : M (gmap string (gmap string string)) unit :=
  throw (ThrownValue (JStr "SQLITE_BUSY")).

Definition server : GuildsServer (gmap string (gmap string string)) :=
  Build_GuildsServer _ "modLog" "moderator" GuildStore.registerGuild setSettings.

End Busy.

(** ** What a request and the table determine *)

(** The user id a request's cookie session carries ([getUserId]). *)
Definition cookie_userId (request : Request) : jsval :=
  (session_get USER_SESSION_KEY (getCookieSession (header_Cookie request))).1.

(** The id of the database session a request refers to ([id || ""]). *)
Definition request_session_id (request : Request) : string :=
  default "" (header_Cookie request ≫= db_session_cookie).

(** The session object [getDbSession] resolves to over a given table. *)
Definition db_session_of (request : Request) (tbl : list Session) : RemixSession :=
  let id := request_session_id request in
  if String.eqb id "" then createSession ∅ ""
  else createSession
         (from_option row_entries ∅ (List.find (λ r, String.eqb (row_id r) id) tbl)) id.

(** The value stored under [state] in the database session of a request. *)
Definition stored_state (request : Request) (tbl : list Session) : jsval :=
  (session_get "state" (db_session_of request tbl)).1.

(** The [state] query parameter differs from the stored value ([!==]). *)
Definition state_mismatch (request : Request) (tbl : list Session) : Prop :=
  strict_neq (stored_state request tbl)
    (searchParams_get "state" (url_searchParams request)) = true.

(** The response of [logout]: a redirect home with the two expired cookies. *)
Definition logout_response : Response :=
  redirect "/" 302
    [Set_Cookie (mkSetCookie "__client-session" (CookieString "") (Some 0) (Some 0));
     Set_Cookie (mkSetCookie "__session" (CookieString "") None (Some 0))].

(** The response of [completeOauthLogin] when no user id could be resolved. *)
Definition no_user_response : Response :=
  json [("message", "Couldn't find a user or create a new user")] 500.

(** The table without the rows of a given id. *)
Definition without_session (id : string) (tbl : list Session) : list Session :=
  List.filter (λ r, negb (String.eqb (row_id r) id)) tbl.

(** A table with the expiry of every row rewritten. *)
Definition with_expiry (f : Session → option string) (r : Session) : Session :=
  mkSession (row_id r) (row_data r) (f r).

(** ** Sample requests and worlds for the concrete runs *)
Module Sample.

Definition alice : User := mkUser "u-1" "alice@example.org" "d-100".

Definition profile : DiscordUser := mkDiscordUser "d-100" "alice@example.org".

(** A site with the given users whose identity provider answers with a
    token and the profile above. *)
Definition site (us : list User) (accepts : bool) : Site.Backend :=
  Site.mkBackend us accepts (Return "token-1") (Return profile) 0 1700000000000.

(** The row of a pending login and a row that expired long ago. *)
Definition pending : Session :=
  mkSession "sess-1" (Some (Site.JSON_stringify {[ "state" := JStr "s-0" ]})) None.

Definition expired : Session :=
  mkSession "sess-0" (Some "{}") (Some "Thu Jan 01 1970 00:00:00 GMT+0000").

Definition world (us : list User) (accepts : bool) : World Site.Backend :=
  mkWorld (site us accepts) [expired; pending] [].

(** The OAuth callback of a browser that holds the pending session. *)
Definition callback : Request :=
  mkRequest "/discord-oauth" [("code", "c0de"); ("state", "s-1")]
    (Some (mkCookieHeader None (Some "sess-1"))).

(** A request without cookies. *)
Definition fresh : Request := mkRequest "/dashboard/guilds" [] None.

(** A request whose cookie session holds the given user id. *)
Definition signed_in (userId : string) : Request :=
  mkRequest "/dashboard" []
    (Some (mkCookieHeader (Some {[ "userId" := JStr userId ]}) (Some "sess-1"))).

(** Setup interactions: one outside a guild, one with role 123 and channel
    456 in a guild. *)
Definition no_guild : CommandInteraction :=
  mkInteraction None (λ _, None) (λ _, None).

Definition setup_123_456 : CommandInteraction :=
  mkInteraction (Some (mkGuild "guild-1"))
    (λ name, if String.eqb name "moderator" then Some (mkRole "123") else None)
    (λ name, if String.eqb name "mod-log-channel" then Some (mkChannel "456") else None).

End Sample.

(** ** More sample inputs *)
Module Cases.

(** A session object without an id that holds a pending state, and session
    objects with the id of a row and with an id that names no row. *)
Definition unsaved : RemixSession := createSession {[ "state" := JStr "s-7" ]} "".

Definition saved : RemixSession := createSession {[ "state" := JStr "s-7" ]} "sess-1".

Definition orphan : RemixSession := createSession {[ "state" := JStr "s-7" ]} "sess-9".

(** The request that brings back the id of the first row a fresh site
    creates. *)
Definition returning : Request :=
  mkRequest "/discord-oauth" [("state", "s-7")]
    (Some (mkCookieHeader None (Some "uuid-0"))).

(** A setup interaction in a guild that selects no role. *)
Definition no_role : CommandInteraction :=
  mkInteraction (Some (mkGuild "guild-1")) (λ _, None) (λ _, None).

End Cases.

(** * Properties *)

Ltac run :=
  unfold mbind, M_bind, mret, M_ret, throw, try_catch, get_world, modify_world,
    collaborator in *; simpl in *.

Section SessionProperties.
Context {B Token : Type} `{!Env B Token}.

Local Abbreviation W := (World B).

Lemma getUserId_run (request : Request) (w : W) :
  getUserId request w = (Return (cookie_userId request), w).
Proof. reflexivity. Qed.

Lemma getDbSession_run (request : Request) (w : W) :
  getDbSession (header_Cookie request) w
  = (Return (db_session_of request (sessions w)), w).
Proof.
  unfold getDbSession, db_session_of, request_session_id.
  destruct (header_Cookie request ≫= db_session_cookie) as [id|]; simpl; [|done].
  destruct (String.eqb id ""); done.
Qed.

Lemma db_session_of_id (request : Request) (tbl : list Session) :
  session_id (db_session_of request tbl) = request_session_id request.
Proof.
  unfold db_session_of.
  destruct (String.eqb (request_session_id request) "") eqn:E; [|done].
  apply String.eqb_eq in E. by rewrite E.
Qed.

Lemma logout_run (request : Request) (w : W) :
  logout request w
  = (Return logout_response,
     mkWorld (backend w)
       (without_session (request_session_id request) (sessions w)) (calls w)).
Proof.
  unfold logout. run. rewrite getDbSession_run.
  unfold destroyDbSession, deleteData. run.
  by rewrite db_session_of_id.
Qed.

Lemma without_session_idem (id : string) (tbl : list Session) :
  without_session id (without_session id tbl) = without_session id tbl.
Proof.
  unfold without_session. induction tbl as [|r tbl IH]; [done|]. simpl.
  destruct (negb (String.eqb (row_id r) id)) eqn:E; simpl; rewrite ?E, IH; done.
Qed.

Lemma without_session_absent (id : string) (tbl : list Session) (r : Session) :
  r ∈ without_session id tbl → row_id r ≠ id.
Proof.
  unfold without_session. rewrite list_elem_of_In, filter_In.
  intros [_ E] Heq. by rewrite Heq, String.eqb_refl in E.
Qed.

(** C4. Logout is idempotent: a first logout returns the redirect home with
    the two expired cookies and leaves no row of the request's database
    session; a second logout of the same request returns the same response
    and leaves the world as the first one left it, without an error. *)
Theorem logout_idempotent (request : Request) (w : W) :
  ∃ w1 : W,
    logout request w = (Return logout_response, w1)
    ∧ logout request w1 = (Return logout_response, w1)
    ∧ status logout_response = 302
    ∧ Location "/" ∈ headers logout_response
    ∧ (∀ r, r ∈ sessions w1 → row_id r ≠ request_session_id request)
    ∧ backend w1 = backend w.
Proof.
  eexists. split; [apply logout_run|]. rewrite logout_run. simpl.
  rewrite without_session_idem. split_and!; try done.
  - unfold logout_response, redirect. simpl. set_solver.
  - intros r. apply without_session_absent.
Qed.

Lemma find_with_expiry (f : Session → option string) (id : string)
    (tbl : list Session) :
  List.find (λ r, String.eqb (row_id r) id) (with_expiry f <$> tbl)
  = with_expiry f <$> List.find (λ r, String.eqb (row_id r) id) tbl.
Proof.
  induction tbl as [|r tbl IH]; [done|]. simpl.
  destruct (String.eqb (row_id r) id); [done|apply IH].
Qed.

Lemma find_unique_row (id : string) (tbl : list Session) (r : Session) :
  r ∈ tbl → row_id r = id → NoDup (row_id <$> tbl) →
  List.find (λ r', String.eqb (row_id r') id) tbl = Some r.
Proof.
  intros Hin Hid. induction tbl as [|r0 tbl IH]; [by apply elem_of_nil in Hin|].
  rewrite fmap_cons, NoDup_cons. intros [Hfresh Hnd]. simpl.
  apply elem_of_cons in Hin as [->|Hin].
  - by rewrite Hid, String.eqb_refl.
  - destruct (String.eqb (row_id r0) id) eqn:E; [|by apply IH].
    apply String.eqb_eq in E. exfalso. apply Hfresh.
    rewrite E, <- Hid. by apply list_elem_of_fmap_2.
Qed.

(** C8. The read operation of the database session store always returns
    (it never throws and leaves the world alone). What it returns is a
    stored row with the asked id, or the absence marker exactly when no
    row has that id. With ids unique, every stored row is returned under
    its id whatever its [expires] holds, and rewriting the expiry of every
    row changes nothing but the expiry of the row returned: the marker is
    never inspected. *)
Theorem readData_contract (id : string) (w : W) :
  ∃ res : option Session,
    readData id w = (Return res, w)
    ∧ (res = None ↔ ∀ r, r ∈ sessions w → row_id r ≠ id)
    ∧ (∀ r, res = Some r → r ∈ sessions w ∧ row_id r = id)
    ∧ (∀ r, r ∈ sessions w → row_id r = id → NoDup (row_id <$> sessions w) →
         res = Some r)
    ∧ (∀ (f : Session → option string) (b : B),
         let w' := mkWorld b (with_expiry f <$> sessions w) (calls w) in
         readData id w' = (Return (with_expiry f <$> res), w')).
Proof.
  exists (List.find (λ r, String.eqb (row_id r) id) (sessions w)).
  split; [done|]. split_and!.
  - split.
    + intros Hnone r Hin Hid. apply list_elem_of_In in Hin.
      pose proof (find_none _ _ Hnone r Hin) as E. simpl in E.
      by rewrite Hid, String.eqb_refl in E.
    + intros Hall.
      destruct (List.find _ (sessions w)) as [r|] eqn:E; [|done].
      apply find_some in E as [Hin E]. apply String.eqb_eq in E.
      apply list_elem_of_In in Hin. by destruct (Hall r Hin).
  - intros r E. apply find_some in E as [Hin E].
    split; [by apply list_elem_of_In|by apply String.eqb_eq].
  - intros r Hin Hid Hnd. by apply find_unique_row.
  - intros f b. unfold readData. simpl. by rewrite find_with_expiry.
Qed.

Lemma form_decode_encode_byte (c : ascii) (t : string) :
  form_decode (form_encode_byte c +:+ t) = String c (form_decode t).
Proof.
  destruct c as [b0 b1 b2 b3 b4 b5 b6 b7].
  destruct b0, b1, b2, b3, b4, b5, b6, b7; reflexivity.
Qed.

Lemma form_decode_encode (s : string) : form_decode (form_encode s) = s.
Proof.
  induction s as [|c s IH]; [done|]. simpl.
  by rewrite form_decode_encode_byte, IH.
Qed.

Lemma requireUserId_run (request : Request) (redirectTo : option string) (w : W) :
  requireUserId request redirectTo w
  = if truthy (cookie_userId request)
    then (Return (cookie_userId request), w)
    else (Throw (ThrownResponse
                   (redirect ("/login?redirectTo=" +:+
                              form_encode (default (url_pathname request) redirectTo))
                      302 [])), w).
Proof.
  unfold requireUserId. run. fold (cookie_userId request).
  destruct (truthy (cookie_userId request)); reflexivity.
Qed.

(** C7. For a request whose cookie session carries no user id,
    [requireUserId] throws a redirect (302) whose location is [/login]
    with the single query parameter [redirectTo], serialized; the value
    of that parameter decodes to the path of the request. Nothing else is
    thrown and the world is left as it was. *)
Theorem requireUserId_redirects_to_login (request : Request) (w : W) :
  cookie_userId request = JUndefined →
  requireUserId request None w
  = (Throw (ThrownResponse
              (redirect ("/login?redirectTo=" +:+ form_encode (url_pathname request))
                 302 [])), w)
  ∧ form_decode (form_encode (url_pathname request)) = url_pathname request.
Proof.
  intros Hno. rewrite requireUserId_run, Hno. simpl.
  split; [reflexivity|apply form_decode_encode].
Qed.

(** C10. A cookie session that maps the user-id key to the empty string is
    treated like one without a user id: [requireUserId] throws the login
    redirect. Whatever [requireUserId] returns is a non-empty string. *)
Theorem requireUserId_returns_nonempty (request : Request)
    (redirectTo : option string) (w : W) :
  (session_data (getCookieSession (header_Cookie request)) !! USER_SESSION_KEY
     = Some (JStr "") →
   requireUserId request redirectTo w
   = (Throw (ThrownResponse
               (redirect ("/login?redirectTo=" +:+
                          form_encode (default (url_pathname request) redirectTo))
                  302 [])), w))
  ∧ (∀ (v : jsval) (w' : W),
       requireUserId request redirectTo w = (Return v, w') →
       ∃ s : string, v = JStr s ∧ s ≠ "").
Proof.
  rewrite requireUserId_run. split.
  - intros Hempty. unfold cookie_userId, session_get. by rewrite Hempty.
  - intros v w'. destruct (cookie_userId request) as [| |s] eqn:E; simpl; try done.
    destruct (String.eqb s "") eqn:Es; simpl; [done|].
    intros [= <- _]. exists s. split; [done|]. by apply String.eqb_neq.
Qed.

(** C6. When the user id of the cookie session no longer maps to a local
    user, [requireUser] and [getUser] both fail by the logout path: the
    row of the request's database session is deleted and what is thrown
    is the response of [logout], the redirect home with the two expired
    cookies. *)
Theorem stale_session_logs_out (request : Request) (w : W) (v : jsval) (b' : B) :
  cookie_userId request = v →
  truthy v = true →
  getUserById v (backend w) = (Return None, b') →
  let w1 := mkWorld b' (sessions w) (calls w ++ [Call_getUserById v]) in
  let w2 := mkWorld b' (without_session (request_session_id request) (sessions w))
              (calls w ++ [Call_getUserById v]) in
  requireUser request w = (Throw (ThrownResponse logout_response), w2)
  ∧ getUser request w = (Throw (ThrownResponse logout_response), w2)
  ∧ logout request w1 = (Return logout_response, w2).
Proof.
  intros Hid Htruthy Hstale w1 w2. split_and!.
  - unfold requireUser. unfold mbind at 1, M_bind.
    rewrite requireUserId_run, Hid, Htruthy.
    run. rewrite Hstale. by rewrite logout_run.
  - unfold getUser. unfold mbind at 1, M_bind.
    rewrite getUserId_run, Hid.
    destruct v; try done.
    run. rewrite Hstale. by rewrite logout_run.
  - apply logout_run.
Qed.

(** *** [completeOauthLogin] *)

Lemma resolveUserId_sessions (w : W) : sessions (resolveUserId w).2 = sessions w.
Proof.
  unfold resolveUserId. run.
  destruct (fetchToken (backend w)) as [[tok|e] b1]; simpl; [|done].
  destruct (fetchUser tok b1) as [[du|e] b2]; simpl; [|done].
  destruct (getUserByExternalId (discord_id du) b2) as [[[u|]|e] b3]; simpl.
  - destruct (negb (negb (String.eqb (user_id u) ""))); simpl; [|done].
    by destruct (createUser (discord_email du) (discord_id du) b3) as [[?|?] ?].
  - by destruct (createUser (discord_email du) (discord_id du) b3) as [[?|?] ?].
  - by destruct (createUser (discord_email du) (discord_id du) b3) as [[?|?] ?].
Qed.

(** On a mismatched state the call ends where the resolution of the user
    id ends, with the 401 redirect, the 500 response or what a
    collaborator threw. *)
Lemma completeOauthLogin_mismatch (request : Request) (w : W) :
  state_mismatch request (sessions w) →
  completeOauthLogin request w
  = match resolveUserId w with
    | (Return (_, userId), w1) =>
        (Throw (ThrownResponse
                  (if truthy userId then redirect "/login" 401 []
                   else no_user_response)), w1)
    | (Throw e, w1) => (Throw e, w1)
    end.
Proof.
  intros Hmis. unfold completeOauthLogin. unfold mbind at 1, M_bind.
  pose proof (resolveUserId_sessions w) as Hs.
  destruct (resolveUserId w) as [[[tok uid]|e] w1]; simpl in *; [|done].
  destruct (truthy uid); simpl; [|done].
  unfold mbind, M_bind. rewrite getDbSession_run, Hs.
  unfold state_mismatch, stored_state in Hmis.
  destruct (session_get "state" (db_session_of request (sessions w))) as [stored s'].
  simpl in Hmis. by rewrite Hmis.
Qed.

(** C1, as the code has it. For a call whose [state] parameter differs
    from the stored value: the call fails and the [sessions] table is as it
    was. What the call throws is decided by the collaborators in their
    order: when [fetchToken], [fetchUser] or [createUser] throws, that value
    is what the call throws; an exception of [getUserByExternalId] is
    swallowed and [createUser] is called, as when no user or a user without
    an id is found; when the lookup or [createUser] yields a user id, the
    call throws the 401 redirect to [/login]; when [createUser] yields no
    id, the 500 response. Neither response carries a [Set-Cookie] header. *)
Theorem mismatched_state_creates_no_session (request : Request) (w : W) :
  state_mismatch request (sessions w) →
  ∃ (e : thrown) (w' : W),
    completeOauthLogin request w = (Throw e, w')
    ∧ sessions w' = sessions w
    ∧ (∀ c, (Set_Cookie c ∉ headers (redirect "/login" 401 []))
            ∧ (Set_Cookie c ∉ headers no_user_response))
    ∧ match fetchToken (backend w) with
      | (Throw e1, _) => e = e1
      | (Return token, b1) =>
          match fetchUser token b1 with
          | (Throw e2, _) => e = e2
          | (Return discordUser, b2) =>
              let lookup := getUserByExternalId (discord_id discordUser) b2 in
              let found :=
                match lookup.1 with
                | Return (Some u) => JStr (user_id u)
                | Return None | Throw _ => JUndefined
                end in
              if truthy found
              then e = ThrownResponse (redirect "/login" 401 [])
              else
                match createUser (discord_email discordUser)
                        (discord_id discordUser) lookup.2 with
                | (Throw e3, _) => e = e3
                | (Return userId, _) =>
                    e = ThrownResponse
                          (if truthy userId then redirect "/login" 401 []
                           else no_user_response)
                end
          end
      end.
Proof.
  intros Hmis. rewrite (completeOauthLogin_mismatch _ _ Hmis).
  assert (∀ c, (Set_Cookie c ∉ headers (redirect "/login" 401 []))
               ∧ (Set_Cookie c ∉ headers no_user_response)) as Hcookie.
  { intros c. split; intros Hin; apply list_elem_of_singleton in Hin;
      discriminate Hin. }
  pose proof (resolveUserId_sessions w) as Hs. revert Hs.
  unfold resolveUserId. run.
  destruct (fetchToken (backend w)) as [[tok|e1] b1]; simpl;
    [|intros Hs; by eexists _, _].
  destruct (fetchUser tok b1) as [[du|e2] b2]; simpl;
    [|intros Hs; by eexists _, _].
  destruct (getUserByExternalId (discord_id du) b2) as [[[u|]|e0] b3]; simpl.
  - destruct (String.eqb (user_id u) "") eqn:Eid; simpl.
    + destruct (createUser (discord_email du) (discord_id du) b3)
        as [[uid|e3] b4]; simpl; intros Hs; by eexists _, _.
    + rewrite Eid. simpl. intros Hs. by eexists _, _.
  - destruct (createUser (discord_email du) (discord_id du) b3)
      as [[uid|e3] b4]; simpl; intros Hs; by eexists _, _.
  - destruct (createUser (discord_email du) (discord_id du) b3)
      as [[uid|e3] b4]; simpl; intros Hs; by eexists _, _.
Qed.

Lemma commitDbSession_run (s : RemixSession) (maxAge : option Z) (w : W) :
  ∃ (id : string) (w' : W),
    commitDbSession s maxAge w
    = (Return (mkSetCookie "__session" (CookieString id) maxAge None), w')
    ∧ calls w' = calls w
    ∧ (backend w' = backend w ∨ backend w' = (randomUUID (backend w)).2).
Proof.
  unfold commitDbSession, createData, draw_uuid, updateData. run.
  destruct (String.eqb (session_id s) ""); simpl.
  - destruct (randomUUID (backend w)) as [id b'] eqn:E. simpl.
    eexists _, _. split; [done|]. simpl. auto.
  - eexists _, _. split; [done|]. simpl. auto.
Qed.



(** A row has the columns [id], [data] and [expires]: the session object
    built from it has no entry under [state], so the stored value the
    state check reads is [undefined] and differs from every value of the
    query parameter. *)
Lemma stored_state_undefined (request : Request) (tbl : list Session) :
  stored_state request tbl = JUndefined.
Proof.
  unfold stored_state, db_session_of.
  destruct (String.eqb (request_session_id request) ""); [done|].
  destruct (List.find _ tbl) as [r|]; [|done].
  unfold session_get, row_entries. simpl. by simplify_map_eq.
Qed.

Lemma state_always_mismatches (request : Request) (tbl : list Session) :
  state_mismatch request tbl.
Proof.
  unfold state_mismatch. rewrite stored_state_undefined.
  unfold searchParams_get. by destruct (List.find _ _).
Qed.

(** An exception of the lookup is swallowed and [createUser] is called. *)
Lemma resolveUserId_lookup_throws (w : W) (tok : Token) (du : DiscordUser)
    (e : thrown) (o : outcome jsval) (b1 b2 b3 b4 : B) :
  fetchToken (backend w) = (Return tok, b1) →
  fetchUser tok b1 = (Return du, b2) →
  getUserByExternalId (discord_id du) b2 = (Throw e, b3) →
  createUser (discord_email du) (discord_id du) b3 = (o, b4) →
  resolveUserId w
  = (match o with Return userId => Return (tok, userId) | Throw e' => Throw e' end,
     mkWorld b4 (sessions w)
       (calls w ++ [Call_fetchToken; Call_fetchUser;
                    Call_getUserByExternalId (discord_id du);
                    Call_createUser (discord_email du) (discord_id du)])).
Proof.
  intros Htok Hdu Hu Hnew. unfold resolveUserId. run.
  rewrite Htok. simpl. rewrite Hdu. simpl. rewrite Hu. simpl.
  rewrite Hnew. rewrite <- !app_assoc. by destruct o.
Qed.


(** C9. The resolution of the user id comes before the state check: when
    the remote user has no local user and [createUser] resolves to an id,
    a call whose [state] parameter differs from the stored value fails
    with the 401 redirect after [createUser] was called, and in the
    backend as [createUser] left it. *)
Theorem user_is_created_before_state_check (request : Request) (w : W)
    (tok : Token) (du : DiscordUser) (userId : jsval) (b1 b2 b3 b4 : B) :
  fetchToken (backend w) = (Return tok, b1) →
  fetchUser tok b1 = (Return du, b2) →
  getUserByExternalId (discord_id du) b2 = (Return None, b3) →
  createUser (discord_email du) (discord_id du) b3 = (Return userId, b4) →
  truthy userId = true →
  state_mismatch request (sessions w) →
  completeOauthLogin request w
  = (Throw (ThrownResponse (redirect "/login" 401 [])),
     mkWorld b4 (sessions w)
       (calls w ++ [Call_fetchToken; Call_fetchUser;
                    Call_getUserByExternalId (discord_id du);
                    Call_createUser (discord_email du) (discord_id du)])).
Proof.
  intros Htok Hdu Hu Hnew Hid Hmis.
  rewrite (completeOauthLogin_mismatch _ _ Hmis).
  unfold resolveUserId. run.
  rewrite Htok. simpl. rewrite Hdu. simpl. rewrite Hu. simpl.
  rewrite Hnew. simpl. rewrite Hid. by rewrite <- !app_assoc.
Qed.

End SessionProperties.

Section SetupProperties.
Context {G : Type} `{!GuildsServer G}.

Lemma handler_try_no_guild (interaction : CommandInteraction) (w : BotWorld G) :
  guild interaction = None →
  handler_try interaction w
  = (Throw (ThrownError (new_Error "Interaction has no guild")), w).
Proof. intros Hg. unfold handler_try. by rewrite Hg. Qed.

Lemma handler_try_no_role (interaction : CommandInteraction) (w : BotWorld G)
    (g : Guild) (store : G) :
  guild interaction = Some g →
  registerGuild g (guilds w) = (Return tt, store) →
  options_getRole interaction "moderator" = None →
  handler_try interaction w
  = (Throw (ThrownError (new_Error "Interaction has no role")),
     mkBotWorld store (replies w)).
Proof.
  intros Hg Hreg Hrole. unfold handler_try, on_guilds. rewrite Hg, Hrole.
  run. by rewrite Hreg.
Qed.

Lemma handler_try_no_channel (interaction : CommandInteraction) (w : BotWorld G)
    (g : Guild) (role : Role) (store : G) :
  guild interaction = Some g →
  registerGuild g (guilds w) = (Return tt, store) →
  options_getRole interaction "moderator" = Some role →
  options_getChannel interaction "mod-log-channel" = None →
  handler_try interaction w
  = (Throw (ThrownError (new_Error "Interaction has no channel")),
     mkBotWorld store (replies w)).
Proof.
  intros Hg Hreg Hrole Hchan. unfold handler_try, on_guilds.
  rewrite Hg, Hrole, Hchan. run. by rewrite Hreg.
Qed.

(** A thrown value that is not an [Error] instance is caught as well, and
    nothing is replied. *)
Lemma handler_swallows_other (interaction : CommandInteraction) (w w1 : BotWorld G)
    (e : thrown) :
  handler_try interaction w = (Throw e, w1) →
  (∀ err, e ≠ ThrownError err) →
  handler interaction w = (Return tt, w1).
Proof.
  intros Htry Hne. unfold handler, try_catch. rewrite Htry.
  destruct e as [r|err|v]; try done. by destruct (Hne err).
Qed.

(** When both operations on the guild store return, the handler hands
    [setSettings] the two settings and replies that the setup completed. *)
Lemma handler_success (interaction : CommandInteraction) (w : BotWorld G)
    (g : Guild) (role : Role) (channel : Channel) (store1 store2 : G) :
  guild interaction = Some g →
  options_getRole interaction "moderator" = Some role →
  options_getChannel interaction "mod-log-channel" = Some channel →
  registerGuild g (guilds w) = (Return tt, store1) →
  setSettings g
    (<[SETTINGS_moderator := role_id role]>
       (<[SETTINGS_modLog := channel_id channel]> ∅)) store1
  = (Return tt, store2) →
  handler interaction w
  = (Return tt, mkBotWorld store2 (replies w ++ ["Setup completed!"])).
Proof.
  intros Hg Hrole Hchan Hreg Hset.
  unfold handler, handler_try, on_guilds, reply. rewrite Hg, Hrole, Hchan.
  run. rewrite Hreg. simpl. by rewrite Hset.
Qed.

(** C2, as the code has it. The handler never throws. Whatever is thrown
    during an invocation is caught, and the store is left as the throwing
    step left it. For an [Error] instance the interaction receives the
    text that embeds the error's [toString()]: this is so for the three
    missing-input errors and for an [Error] of [registerGuild] or
    [setSettings]. For a thrown value that is not an [Error] instance
    nothing is replied. *)
Theorem handler_catches_and_replies (interaction : CommandInteraction)
    (w : BotWorld G) :
  (∃ w', handler interaction w = (Return tt, w'))
  ∧ (guild interaction = None →
     handler interaction w
     = (Return tt,
        mkBotWorld (guilds w)
          (replies w ++ [something_broke (new_Error "Interaction has no guild")])))
  ∧ (∀ g, guild interaction = Some g →
       (∀ t store, registerGuild g (guilds w) = (Throw t, store) →
          handler interaction w
          = (Return tt, mkBotWorld store (replies w ++ caught_reply t)))
       ∧ (∀ store, registerGuild g (guilds w) = (Return tt, store) →
            (options_getRole interaction "moderator" = None →
             handler interaction w
             = (Return tt,
                mkBotWorld store
                  (replies w ++
                   [something_broke (new_Error "Interaction has no role")])))
            ∧ (∀ role, options_getRole interaction "moderator" = Some role →
                 (options_getChannel interaction "mod-log-channel" = None →
                  handler interaction w
                  = (Return tt,
                     mkBotWorld store
                       (replies w ++
                        [something_broke (new_Error "Interaction has no channel")])))
                 ∧ (∀ channel t store2,
                      options_getChannel interaction "mod-log-channel" = Some channel →
                      setSettings g
                        (<[SETTINGS_moderator := role_id role]>
                           (<[SETTINGS_modLog := channel_id channel]> ∅)) store
                      = (Throw t, store2) →
                      handler interaction w
                      = (Return tt,
                         mkBotWorld store2 (replies w ++ caught_reply t))))))
  ∧ (∀ err, caught_reply (ThrownError err) = [something_broke err])
  ∧ (∀ t, (∀ err, t ≠ ThrownError err) → caught_reply t = []).
Proof.
  split_and!.
  - unfold handler, try_catch.
    destruct (handler_try interaction w) as [[[]|e] w1]; [by eexists|].
    destruct e; by eexists.
  - intros Hg. unfold handler, try_catch. by rewrite handler_try_no_guild.
  - intros g Hg. split.
    + intros t store Hreg. unfold handler, try_catch, handler_try, on_guilds.
      rewrite Hg. run. rewrite Hreg. simpl.
      destruct t; simpl; by rewrite ?app_nil_r.
    + intros store Hreg. split.
      * intros Hrole. unfold handler, try_catch.
        by rewrite (handler_try_no_role interaction w g store Hg Hreg Hrole).
      * intros role Hrole. split.
        -- intros Hchan. unfold handler, try_catch.
           by rewrite (handler_try_no_channel interaction w g role store
                         Hg Hreg Hrole Hchan).
        -- intros channel t store2 Hchan Hset.
           unfold handler, try_catch, handler_try, on_guilds.
           rewrite Hg, Hrole, Hchan. run. rewrite Hreg. simpl. rewrite Hset. simpl.
           destruct t; simpl; by rewrite ?app_nil_r.
  - done.
  - intros t Hne. destruct t as [r|err|v]; try done. by destruct (Hne err).
Qed.

End SetupProperties.

(** C5. Over the guild store modelled above: an invocation that carries a
    guild, a role for [moderator] and a channel for [mod-log-channel]
    returns, the interaction receives exactly the reply [Setup completed!],
    and afterwards the settings of the guild map [moderator] to the id of
    the role and [modLog] to the id of the channel, whether or not the guild
    was registered before. The settings of other guilds are as they were. *)
Theorem setup_writes_both_settings (interaction : CommandInteraction)
    (g : Guild) (role : Role) (channel : Channel)
    (w : BotWorld (gmap string (gmap string string))) :
  guild interaction = Some g →
  options_getRole interaction "moderator" = Some role →
  options_getChannel interaction "mod-log-channel" = Some channel →
  ∃ store' : gmap string (gmap string string),
    handler interaction w
    = (Return tt, mkBotWorld store' (replies w ++ ["Setup completed!"]))
    ∧ (∃ settings : gmap string string,
         store' !! guild_id g = Some settings
         ∧ settings !! "moderator" = Some (role_id role)
         ∧ settings !! "modLog" = Some (channel_id channel))
    ∧ (∀ other, other ≠ guild_id g → store' !! other = guilds w !! other).
Proof.
  intros Hg Hrole Hchan. eexists. split.
  - eapply handler_success; try done.
  - simpl. split.
    + destruct (guilds w !! guild_id g) as [old|] eqn:E.
      * eexists. rewrite lookup_alter_eq, E. simpl. split; [done|].
        split; apply lookup_union_Some_l; by simplify_map_eq.
      * eexists. rewrite lookup_alter_eq, lookup_insert_eq. simpl. split; [done|].
        split; apply lookup_union_Some_l; by simplify_map_eq.
    + intros other Hne. rewrite lookup_alter_ne by done.
      destruct (guilds w !! guild_id g); [done|]. by rewrite lookup_insert_ne.
Qed.

(** * Concrete runs *)

Example readData_returns_expired_row :
  readData "sess-0" (Sample.world [] true)
  = (Return (Some Sample.expired), Sample.world [] true).
Proof. reflexivity. Qed.

Example readData_unknown_id :
  readData "sess-9" (Sample.world [] true) = (Return None, Sample.world [] true).
Proof. reflexivity. Qed.

(** The callback of the sample carries [state=s-1]; the session row it
    refers to yields no value under [state]. *)
Lemma sample_state_mismatch :
  state_mismatch Sample.callback [Sample.expired; Sample.pending].
Proof. vm_compute. reflexivity. Defined.

(** C1, as stated, fails: with a mismatched state and a user model that
    cannot create the user, the call fails with the 500 response, not with
    the 401 redirect. *)
Lemma mismatched_state_not_always_401 :
  state_mismatch Sample.callback (sessions (Sample.world [] false))
  ∧ completeOauthLogin Sample.callback (Sample.world [] false)
    = (Throw (ThrownResponse no_user_response),
       mkWorld (Sample.site [] false) [Sample.expired; Sample.pending]
         [Call_fetchToken; Call_fetchUser; Call_getUserByExternalId "d-100";
          Call_createUser "alice@example.org" "d-100"])
  ∧ ¬ (∃ w', completeOauthLogin Sample.callback (Sample.world [] false)
             = (Throw (ThrownResponse (redirect "/login" 401 [])), w')).
Proof.
  split; [exact sample_state_mismatch|].
  assert (completeOauthLogin Sample.callback (Sample.world [] false)
          = (Throw (ThrownResponse no_user_response),
             mkWorld (Sample.site [] false) [Sample.expired; Sample.pending]
               [Call_fetchToken; Call_fetchUser; Call_getUserByExternalId "d-100";
                Call_createUser "alice@example.org" "d-100"])) as Hrun
    by (vm_compute; reflexivity).
  split; [exact Hrun|].
  intros [w' Hw']. rewrite Hrun in Hw'. discriminate Hw'.
Qed.

(** A token exchange that the identity provider refuses surfaces as it is. *)
Example refused_token_exchange_surfaces :
  let site :=
    Site.mkBackend [] true (Throw (ThrownError (new_Error "invalid_grant")))
      (Return Sample.profile) 0 0 in
  completeOauthLogin Sample.callback (mkWorld site [Sample.pending] [])
  = (Throw (ThrownError (new_Error "invalid_grant")),
     mkWorld site [Sample.pending] [Call_fetchToken]).
Proof. vm_compute. reflexivity. Qed.

(** C2, as stated, fails: when [setSettings] rejects with a value that is
    not an [Error] instance, the value is caught and the interaction
    receives no reply. *)
Lemma non_error_failure_gets_no_reply :
  handler_try (GuildsServer0 := Busy.server) Sample.setup_123_456 (mkBotWorld ∅ [])
  = (Throw (ThrownValue (JStr "SQLITE_BUSY")), mkBotWorld {[ "guild-1" := ∅ ]} [])
  ∧ handler (GuildsServer0 := Busy.server) Sample.setup_123_456 (mkBotWorld ∅ [])
    = (Return tt, mkBotWorld {[ "guild-1" := ∅ ]} [])
  ∧ ¬ (∃ text store,
         handler (GuildsServer0 := Busy.server) Sample.setup_123_456 (mkBotWorld ∅ [])
         = (Return tt, mkBotWorld store [text])).
Proof.
  assert (handler (GuildsServer0 := Busy.server) Sample.setup_123_456 (mkBotWorld ∅ [])
          = (Return tt, mkBotWorld {[ "guild-1" := ∅ ]} [])) as Hrun
    by (vm_compute; reflexivity).
  split; [vm_compute; reflexivity|]. split; [exact Hrun|].
  intros (text & store & Hreply). rewrite Hrun in Hreply. discriminate Hreply.
Qed.


(** C1 on the sample callback, with a site that can create the user. *)
Lemma mismatched_state_witness :
  ∃ w', completeOauthLogin Sample.callback (Sample.world [] true)
        = (Throw (ThrownResponse (redirect "/login" 401 [])), w')
        ∧ sessions w' = [Sample.expired; Sample.pending].
Proof.
  destruct (mismatched_state_creates_no_session Sample.callback
              (Sample.world [] true) sample_state_mismatch)
    as (e & w' & Hrun & Hs & _ & He).
  exists w'. vm_compute in He. rewrite He in Hrun.
  split; [exact Hrun|exact Hs].
Defined.

(** C2 on an interaction outside a guild. *)
Lemma handler_no_guild_witness :
  handler Sample.no_guild (mkBotWorld (∅ : gmap string (gmap string string)) [])
  = (Return tt,
     mkBotWorld ∅
       ["Something broke:
```
Error: Interaction has no guild
```
"]).
Proof.
  apply (handler_catches_and_replies Sample.no_guild (mkBotWorld ∅ [])).
  reflexivity.
Defined.


(** C6 on a cookie session whose user id is not in the user table. *)
Lemma stale_session_witness :
  requireUser (Sample.signed_in "u-9") (Sample.world [Sample.alice] true)
  = (Throw (ThrownResponse logout_response),
     mkWorld (Sample.site [Sample.alice] true) [Sample.expired]
       [Call_getUserById (JStr "u-9")])
  ∧ getUser (Sample.signed_in "u-9") (Sample.world [Sample.alice] true)
    = (Throw (ThrownResponse logout_response),
       mkWorld (Sample.site [Sample.alice] true) [Sample.expired]
         [Call_getUserById (JStr "u-9")]).
Proof.
  destruct (stale_session_logs_out (Sample.signed_in "u-9")
              (Sample.world [Sample.alice] true) (JStr "u-9")
              (Sample.site [Sample.alice] true))
    as (Hrequire & Hget & _);
    [vm_compute; reflexivity|reflexivity|reflexivity|].
  split; [exact Hrequire|exact Hget].
Defined.

(** C7 on a request without cookies. *)
Lemma fresh_request_witness :
  requireUserId Sample.fresh None (Sample.world [] true)
  = (Throw (ThrownResponse
              (redirect "/login?redirectTo=%2Fdashboard%2Fguilds" 302 [])),
     Sample.world [] true).
Proof.
  apply (requireUserId_redirects_to_login Sample.fresh (Sample.world [] true)).
  vm_compute. reflexivity.
Defined.

(** C9 on a site that does not know the remote user: the user table has
    gained a record when the call fails. *)
Lemma created_user_witness :
  ∃ w',
    completeOauthLogin Sample.callback (Sample.world [] true)
    = (Throw (ThrownResponse (redirect "/login" 401 [])), w')
    ∧ Site.users (backend (Sample.world [] true)) = []
    ∧ Site.users (backend w') = [mkUser "uuid-0" "alice@example.org" "d-100"].
Proof.
  eexists. split.
  - apply (user_is_created_before_state_check Sample.callback (Sample.world [] true)
             "token-1" Sample.profile (JStr "uuid-0")
             (Sample.site [] true) (Sample.site [] true) (Sample.site [] true)
             (Site.mkBackend [mkUser "uuid-0" "alice@example.org" "d-100"] true
                (Return "token-1") (Return Sample.profile) 1 1700000000000));
      [reflexivity|reflexivity|reflexivity|vm_compute; reflexivity|reflexivity|
       exact sample_state_mismatch].
  - split; reflexivity.
Defined.

(** C10 on a cookie session whose user id is the empty string. *)
Lemma empty_user_id_witness :
  requireUserId (Sample.signed_in "") None (Sample.world [] true)
  = (Throw (ThrownResponse (redirect "/login?redirectTo=%2Fdashboard" 302 [])),
     Sample.world [] true).
Proof.
  apply (requireUserId_returns_nonempty (Sample.signed_in "") None (Sample.world [] true)).
  vm_compute. reflexivity.
Defined.

(** C5 on role 123 and channel 456 in a guild that was not registered. *)
Lemma setup_123_456_witness :
  ∃ store',
    handler Sample.setup_123_456 (mkBotWorld ∅ [])
    = (Return tt, mkBotWorld store' ["Setup completed!"])
    ∧ ∃ settings,
        store' !! "guild-1" = Some settings
        ∧ settings !! "moderator" = Some "123"
        ∧ settings !! "modLog" = Some "456".
Proof.
  destruct (setup_writes_both_settings Sample.setup_123_456
              (mkGuild "guild-1") (mkRole "123") (mkChannel "456")
              (mkBotWorld ∅ []))
    as (store' & Hrun & Hsettings & _);
    [reflexivity|reflexivity|reflexivity|].
  exists store'. split; [exact Hrun|exact Hsettings].
Defined.

Example setup_123_456_store :
  handler Sample.setup_123_456 (mkBotWorld ∅ [])
  = (Return tt,
     mkBotWorld {[ "guild-1" := {[ "moderator" := "123"; "modLog" := "456" ]} ]}
       ["Setup completed!"]).
Proof. vm_compute. reflexivity. Qed.

(** The state that [initOauthLogin] stores goes into the [data] column of
    the new row; the callback that brings the same state back reads the
    row's columns and is refused. *)
Example init_then_complete :
  let w1 := (initOauthLogin Sample.fresh "/" (Sample.world [] true)).2 in
  let callback :=
    mkRequest "/discord-oauth" [("code", "c0de"); ("state", "uuid-0")]
      (Some (mkCookieHeader None (Some "uuid-1"))) in
  row_id <$> sessions w1 = ["sess-0"; "sess-1"; "uuid-1"]
  ∧ (completeOauthLogin callback w1).1
    = Throw (ThrownResponse (redirect "/login" 401 [])).
Proof. vm_compute. split; reflexivity. Qed.

(** * Further properties of the session store *)

Section StoreProperties.
Context {B Token : Type} `{!Env B Token}.

Local Abbreviation W := (World B).

Lemma find_id_app_fresh (id : string) (tbl : list Session) (r : Session) :
  (∀ r', r' ∈ tbl → row_id r' ≠ id) →
  row_id r = id →
  List.find (λ r', String.eqb (row_id r') id) (tbl ++ [r]) = Some r.
Proof.
  intros Hfresh Hid. induction tbl as [|r0 tbl IH]; simpl.
  - by rewrite Hid, String.eqb_refl.
  - destruct (String.eqb (row_id r0) id) eqn:E.
    + apply String.eqb_eq in E. destruct (Hfresh r0); [by left|done].
    + apply IH. intros r' Hin. apply Hfresh. by right.
Qed.

Lemma find_id_filter_same (id : string) (tbl : list Session) :
  List.find (λ r, String.eqb (row_id r) id)
    (List.filter (λ r, negb (String.eqb (row_id r) id)) tbl) = None.
Proof.
  induction tbl as [|r tbl IH]; [done|]. simpl.
  destruct (String.eqb (row_id r) id) eqn:E; simpl; [done|]. by rewrite E.
Qed.

Lemma find_id_filter_other (id id' : string) (tbl : list Session) :
  id' ≠ id →
  List.find (λ r, String.eqb (row_id r) id')
    (List.filter (λ r, negb (String.eqb (row_id r) id)) tbl)
  = List.find (λ r, String.eqb (row_id r) id') tbl.
Proof.
  intros Hne. induction tbl as [|r tbl IH]; [done|]. simpl.
  destruct (String.eqb (row_id r) id) eqn:E; simpl.
  - apply String.eqb_eq in E. rewrite E.
    apply not_eq_sym, String.eqb_neq in Hne. by rewrite Hne.
  - by rewrite IH.
Qed.

(** X1. Committing a session that has no id creates exactly one row, after
    the rows that were there: its id is the one drawn, its data the JSON
    text of the session data, and the cookie carries that id. When no row
    had that id, reading the id back returns the new row. *)
Theorem commit_new_session_creates_row (s : RemixSession) (maxAge : option Z) (w : W) :
  session_id s = "" →
  let id := (randomUUID (backend w)).1 in
  let row := mkSession id (Some (JSON_stringify (session_data s)))
               (commit_expires maxAge (backend w)) in
  let w' := mkWorld (randomUUID (backend w)).2 (sessions w ++ [row]) (calls w) in
  commitDbSession s maxAge w
  = (Return (mkSetCookie "__session" (CookieString id) maxAge None), w')
  ∧ ((∀ r, r ∈ sessions w → row_id r ≠ id) →
     readData id w' = (Return (Some row), w')).
Proof.
  intros Hid id row w'. split.
  - unfold commitDbSession, createData, draw_uuid. run. rewrite Hid. simpl.
    subst id row w'. by destruct (randomUUID (backend w)).
  - intros Hfresh. unfold readData. simpl. by rewrite find_id_app_fresh.
Qed.

(** X2. Committing a session that has an id updates in place: the ids of
    the rows and their order are kept, no row is added, a row of another id
    is left as it is, and a row of that id gets the JSON text of the
    session data; its expiry is replaced only when the commit has one. *)
Theorem commit_existing_session_updates_in_place (s : RemixSession)
    (maxAge : option Z) (w : W) :
  session_id s ≠ "" →
  ∃ w' : W,
    commitDbSession s maxAge w
    = (Return (mkSetCookie "__session" (CookieString (session_id s)) maxAge None), w')
    ∧ backend w' = backend w
    ∧ row_id <$> sessions w' = row_id <$> sessions w
    ∧ (∀ i r, sessions w !! i = Some r → row_id r ≠ session_id s →
         sessions w' !! i = Some r)
    ∧ (∀ i r, sessions w !! i = Some r → row_id r = session_id s →
         sessions w' !! i
         = Some (mkSession (row_id r) (Some (JSON_stringify (session_data s)))
                   (from_option Some (row_expires r)
                      (commit_expires maxAge (backend w))))).
Proof.
  intros Hid. apply String.eqb_neq in Hid.
  unfold commitDbSession, updateData. run. rewrite Hid. simpl.
  eexists. split; [done|]. simpl. split_and!; [done| | |].
  - rewrite <- list_fmap_compose. apply list_fmap_ext. intros i r _. simpl.
    by destruct (String.eqb (row_id r) (session_id s)).
  - intros i r Hi Hne. rewrite list_lookup_fmap, Hi. simpl.
    apply String.eqb_neq in Hne. by rewrite Hne.
  - intros i r Hi Heq. rewrite list_lookup_fmap, Hi. simpl.
    rewrite Heq, String.eqb_refl. by destruct (commit_expires maxAge (backend w)).
Qed.

(** X3. Committing a session whose id names no row stores nothing: the
    table is left as it was, and the cookie with that id is issued all the
    same. *)
Theorem commit_unknown_session_stores_nothing (s : RemixSession)
    (maxAge : option Z) (w : W) :
  session_id s ≠ "" →
  (∀ r, r ∈ sessions w → row_id r ≠ session_id s) →
  commitDbSession s maxAge w
  = (Return (mkSetCookie "__session" (CookieString (session_id s)) maxAge None), w).
Proof.
  intros Hid Hnone. apply String.eqb_neq in Hid.
  unfold commitDbSession, updateData. run. rewrite Hid. simpl.
  f_equal. destruct w as [b tbl cs]. simpl in *. f_equal.
  induction tbl as [|r tbl IH]; [done|]. simpl.
  assert (String.eqb (row_id r) (session_id s) = false) as ->.
  { apply String.eqb_neq, Hnone. by left. }
  f_equal. apply IH. intros r' Hin. apply Hnone. by right.
Qed.

(** X4. After [deleteData] of an id, reading that id finds nothing, and
    reading any other id finds what it found before. *)
Theorem deleteData_removes_that_id_only (id : string) (w : W) :
  ∃ w' : W,
    deleteData id w = (Return tt, w')
    ∧ readData id w' = (Return None, w')
    ∧ ∀ id', id' ≠ id → (readData id' w').1 = (readData id' w).1.
Proof.
  unfold deleteData, readData. run. eexists. split; [done|]. simpl. split.
  - by rewrite find_id_filter_same.
  - intros id' Hne. by rewrite find_id_filter_other.
Qed.

End StoreProperties.

(** * Further properties of the exported functions *)

Section AuthProperties.
Context {B Token : Type} `{!Env B Token}.

Local Abbreviation W := (World B).

Lemma map_rows_no_match (id : string) (g : Session → Session) (tbl : list Session) :
  (∀ r, r ∈ tbl → row_id r ≠ id) →
  List.map (λ r, if String.eqb (row_id r) id then g r else r) tbl = tbl.
Proof.
  intros Hnone. induction tbl as [|r tbl IH]; [done|]. simpl.
  assert (String.eqb (row_id r) id = false) as ->.
  { apply String.eqb_neq, Hnone. by left. }
  f_equal. apply IH. intros r' Hin. apply Hnone. by right.
Qed.

Lemma flash_not_column (name : string) :
  flash name ≠ "id" ∧ flash name ≠ "data" ∧ flash name ≠ "expires".
Proof. unfold flash. simpl. split_and!; discriminate. Qed.

Lemma row_entries_other (r : Session) (name : string) :
  name ≠ "id" → name ≠ "data" → name ≠ "expires" → row_entries r !! name = None.
Proof.
  intros H1 H2 H3. unfold row_entries.
  by rewrite !lookup_insert_ne, lookup_empty.
Qed.

(** X5. The session object of a request is built from the columns of the
    row that [readData] returns: [id] reads as the row's id and [data] as the
    stored text (or [null]), and every name other than the three columns
    reads as [undefined], whatever the row's data holds. *)
Theorem db_session_reads_row_columns (request : Request) (w : W) :
  ∃ s : RemixSession,
    getDbSession (header_Cookie request) w = (Return s, w)
    ∧ (∀ name, name ≠ "id" → name ≠ "data" → name ≠ "expires" →
         (session_get name s).1 = JUndefined)
    ∧ (∀ r, request_session_id request ≠ "" →
         readData (request_session_id request) w = (Return (Some r), w) →
         (session_get "id" s).1 = JStr (row_id r)
         ∧ (session_get "data" s).1 = from_option JStr JNull (row_data r)).
Proof.
  exists (db_session_of request (sessions w)). split; [apply getDbSession_run|].
  unfold db_session_of, readData. split.
  - intros name H1 H2 H3. destruct (flash_not_column name) as (F1 & F2 & F3).
    destruct (String.eqb (request_session_id request) ""); [done|].
    destruct (List.find _ (sessions w)) as [r|]; [|done].
    unfold session_get. simpl. by rewrite !row_entries_other.
  - intros r Hid [= Hfind]. apply String.eqb_neq in Hid. rewrite Hid, Hfind.
    unfold session_get, row_entries. simpl. by simplify_map_eq.
Qed.

(** X6. What a commit stores is not read back under its names: after a
    session without an id is committed, the session object of the request
    that brings the new id back has the JSON text of the committed data
    under [data], and reads [undefined] under every name that is not a
    column. *)
Theorem committed_data_is_not_read_back (s : RemixSession) (maxAge : option Z)
    (w : W) (request : Request) :
  session_id s = "" →
  let id := (randomUUID (backend w)).1 in
  id ≠ "" →
  (∀ r, r ∈ sessions w → row_id r ≠ id) →
  request_session_id request = id →
  ∃ (c : SetCookie) (w' : W) (s' : RemixSession),
    commitDbSession s maxAge w = (Return c, w')
    ∧ sc_value c = CookieString id
    ∧ getDbSession (header_Cookie request) w' = (Return s', w')
    ∧ (session_get "data" s').1 = JStr (JSON_stringify (session_data s))
    ∧ (∀ name, name ≠ "id" → name ≠ "data" → name ≠ "expires" →
         (session_get name s').1 = JUndefined).
Proof.
  intros Hnew id Hid Hfresh Hreq.
  set (row := mkSession id (Some (JSON_stringify (session_data s)))
                (commit_expires maxAge (backend w))).
  exists (mkSetCookie "__session" (CookieString id) maxAge None),
    (mkWorld (randomUUID (backend w)).2 (sessions w ++ [row]) (calls w)).
  eexists. split.
  { unfold commitDbSession, createData, draw_uuid. run. rewrite Hnew. simpl.
    subst id row. by destruct (randomUUID (backend w)). }
  split; [done|]. split; [apply getDbSession_run|].
  unfold db_session_of. simpl. rewrite Hreq.
  apply String.eqb_neq in Hid. rewrite Hid.
  rewrite (find_id_app_fresh id (sessions w) row Hfresh eq_refl).
  split.
  - unfold session_get, row_entries. simpl. by simplify_map_eq.
  - intros name H1 H2 H3. destruct (flash_not_column name) as (F1 & F2 & F3).
    unfold session_get. simpl. by rewrite !row_entries_other.
Qed.

(** X7. [completeOauthLogin] never returns: the value it reads under
    [state] is [undefined], which differs from every value of the query
    parameter, so every call that gets as far as the state check is refused
    there. No call changes the [sessions] table. *)
Theorem completeOauthLogin_never_returns (request : Request) (w : W) :
  ∃ (e : thrown) (w' : W),
    completeOauthLogin request w = (Throw e, w') ∧ sessions w' = sessions w.
Proof.
  rewrite (completeOauthLogin_mismatch request w (state_always_mismatches _ _)).
  pose proof (resolveUserId_sessions w) as Hs.
  destruct (resolveUserId w) as [[[tok uid]|e] w1]; simpl in *; by eexists _, _.
Qed.

(** X8. Without a user id in the cookie session, [getUser] returns [null]:
    it makes no lookup and leaves the world as it was. *)
Theorem getUser_without_user_id (request : Request) (w : W) :
  cookie_userId request = JUndefined →
  getUser request w = (Return None, w).
Proof.
  intros Hno. unfold getUser. unfold mbind at 1, M_bind.
  by rewrite getUserId_run, Hno.
Qed.

(** X9. When the user id of the cookie session maps to a user, [requireUser]
    returns that user and [getUser] returns it too, after exactly one
    lookup; the [sessions] table is not touched. *)
Theorem signed_in_user_is_resolved (request : Request) (w : W) (v : jsval)
    (u : User) (b' : B) :
  cookie_userId request = v →
  truthy v = true →
  getUserById v (backend w) = (Return (Some u), b') →
  let w1 := mkWorld b' (sessions w) (calls w ++ [Call_getUserById v]) in
  requireUser request w = (Return u, w1)
  ∧ getUser request w = (Return (Some u), w1).
Proof.
  intros Hid Htruthy Hfound w1. split.
  - unfold requireUser. unfold mbind at 1, M_bind.
    rewrite requireUserId_run, Hid, Htruthy. run. by rewrite Hfound.
  - unfold getUser. unfold mbind at 1, M_bind. rewrite getUserId_run, Hid.
    destruct v; try done. run. by rewrite Hfound.
Qed.

(** X10. A user id that is present but falsy ([null] or the empty string)
    separates the two functions: [requireUser] throws the login redirect
    without a lookup and without touching the sessions, while [getUser]
    looks the id up and, when no user is found, logs the caller out. *)
Theorem falsy_user_id_splits_getUser_and_requireUser (request : Request) (w : W)
    (v : jsval) (b' : B) :
  cookie_userId request = v →
  v ≠ JUndefined →
  truthy v = false →
  getUserById v (backend w) = (Return None, b') →
  requireUser request w
  = (Throw (ThrownResponse
              (redirect ("/login?redirectTo=" +:+ form_encode (url_pathname request))
                 302 [])), w)
  ∧ getUser request w
    = (Throw (ThrownResponse logout_response),
       mkWorld b' (without_session (request_session_id request) (sessions w))
         (calls w ++ [Call_getUserById v])).
Proof.
  intros Hid Hdef Hfalsy Hnone. split.
  - unfold requireUser. unfold mbind at 1, M_bind.
    by rewrite requireUserId_run, Hid, Hfalsy.
  - unfold getUser. unfold mbind at 1, M_bind. rewrite getUserId_run, Hid.
    rewrite bool_decide_eq_false_2 by done.
    run. rewrite Hnone. by rewrite logout_run.
Qed.

(** X11. An exception of the lookup by id is not turned into a logout:
    [requireUser] and [getUser] throw what [getUserById] threw, and the
    [sessions] table is as it was. *)
Theorem lookup_error_surfaces (request : Request) (w : W) (v : jsval)
    (e : thrown) (b' : B) :
  cookie_userId request = v →
  truthy v = true →
  getUserById v (backend w) = (Throw e, b') →
  let w1 := mkWorld b' (sessions w) (calls w ++ [Call_getUserById v]) in
  requireUser request w = (Throw e, w1)
  ∧ getUser request w = (Throw e, w1).
Proof.
  intros Hid Htruthy Hthrow w1. split.
  - unfold requireUser. unfold mbind at 1, M_bind.
    rewrite requireUserId_run, Hid, Htruthy. run. by rewrite Hthrow.
  - unfold getUser. unfold mbind at 1, M_bind. rewrite getUserId_run, Hid.
    destruct v; try done. run. by rewrite Hthrow.
Qed.

Lemma form_encode_byte_safe (c : ascii) (t : string) :
  string_forall form_safe (form_encode_byte c +:+ t) = string_forall form_safe t.
Proof.
  destruct c as [b0 b1 b2 b3 b4 b5 b6 b7].
  destruct b0, b1, b2, b3, b4, b5, b6, b7; reflexivity.
Qed.

Lemma form_encode_safe (s : string) : string_forall form_safe (form_encode s) = true.
Proof.
  induction s as [|c s IH]; [done|]. simpl. by rewrite form_encode_byte_safe.
Qed.

(** X12. With a target given by the caller, the login redirect carries that
    target instead of the path of the request: the location is [/login]
    with the one parameter [redirectTo], whose serialized value is made of
    unreserved characters, [+] and [%] only (so it holds no [&], [=] or
    [#]) and decodes to the target. *)
Theorem login_redirect_carries_the_target (request : Request) (target : string)
    (w : W) :
  truthy (cookie_userId request) = false →
  requireUserId request (Some target) w
  = (Throw (ThrownResponse
              (redirect ("/login?redirectTo=" +:+ form_encode target) 302 [])), w)
  ∧ string_forall form_safe (form_encode target) = true
  ∧ form_decode (form_encode target) = target.
Proof.
  intros Hfalsy. rewrite requireUserId_run, Hfalsy. simpl.
  split_and!; [done|apply form_encode_safe|apply form_decode_encode].
Qed.

(** X13. A login initiated without a session cookie draws the state, then
    the id of a new row: the row is added after the others with the JSON
    text of the state as its data, the response is the redirect (302) to
    the authorization URL for the target and the state, and its one cookie
    carries the new id with a [Max-Age] of one hour. No collaborating
    module is called. *)
Theorem initOauthLogin_creates_pending_session (request : Request)
    (redirectTo : string) (w : W) :
  request_session_id request = "" →
  let state := (randomUUID (backend w)).1 in
  let b1 := (randomUUID (backend w)).2 in
  let id := (randomUUID b1).1 in
  initOauthLogin request redirectTo w
  = (Return (redirect (authUrl redirectTo state) 302
               [Set_Cookie (mkSetCookie "__session" (CookieString id) (Some 3600) None)]),
     mkWorld (randomUUID b1).2
       (sessions w ++
        [mkSession id (Some (JSON_stringify (<["state" := JStr state]> ∅)))
           (commit_expires (Some 3600) b1)])
       (calls w)).
Proof.
  intros Hid state b1 id. unfold initOauthLogin. unfold mbind at 1, M_bind.
  rewrite getDbSession_run. unfold db_session_of. rewrite Hid. simpl.
  unfold draw_uuid, commitDbSession, createData, draw_uuid. run.
  subst state b1 id. destruct (randomUUID (backend w)) as [state b1]. simpl.
  by destruct (randomUUID b1).
Qed.

(** X14. A login initiated with a session cookie adds no row: the ids of
    the rows are as before and the cookie carries the id the request
    brought. When that id names no row, the table is left as it was, so the
    state that the redirect carries is stored nowhere. *)
Theorem initOauthLogin_reuses_session_id (request : Request)
    (redirectTo : string) (w : W) :
  request_session_id request ≠ "" →
  ∃ w' : W,
    initOauthLogin request redirectTo w
    = (Return (redirect (authUrl redirectTo (randomUUID (backend w)).1) 302
                 [Set_Cookie
                    (mkSetCookie "__session"
                       (CookieString (request_session_id request)) (Some 3600) None)]),
       w')
    ∧ row_id <$> sessions w' = row_id <$> sessions w
    ∧ ((∀ r, r ∈ sessions w → row_id r ≠ request_session_id request) →
       sessions w' = sessions w).
Proof.
  intros Hid. unfold initOauthLogin. unfold mbind at 1, M_bind.
  rewrite getDbSession_run. unfold draw_uuid, commitDbSession, updateData. run.
  destruct (randomUUID (backend w)) as [state b1]. simpl.
  rewrite db_session_of_id. apply String.eqb_neq in Hid. rewrite Hid. simpl.
  eexists. split; [done|]. simpl. split.
  - rewrite <- list_fmap_compose. apply list_fmap_ext. intros i r _. simpl.
    by destruct (String.eqb (row_id r) (request_session_id request)).
  - intros Hnone.
    by apply (map_rows_no_match (request_session_id request)
                (λ r, mkSession (row_id r) _ _)).
Qed.

(** X15. [logout] touches the session of the request only: the rows of
    every other id read as before, the backend is as it was, and no
    collaborating module is called. *)
Theorem logout_keeps_other_sessions (request : Request) (w : W) :
  ∃ w' : W,
    logout request w = (Return logout_response, w')
    ∧ backend w' = backend w
    ∧ calls w' = calls w
    ∧ ∀ id, id ≠ request_session_id request →
        (readData id w').1 = (readData id w).1.
Proof.
  eexists. split; [apply logout_run|]. simpl. split_and!; try done.
  intros id Hne. unfold readData, without_session. simpl.
  by rewrite find_id_filter_other.
Qed.

(** X16. A [logout] without a [Cookie] header asks for the rows of the
    empty id to be deleted; when no row has the empty id, the table is left
    exactly as it was and the redirect home is returned all the same. *)
Theorem logout_without_cookie (request : Request) (w : W) :
  header_Cookie request = None →
  (∀ r, r ∈ sessions w → row_id r ≠ "") →
  logout request w = (Return logout_response, w).
Proof.
  intros Hno Hrows. rewrite logout_run. unfold request_session_id. rewrite Hno.
  simpl. f_equal. destruct w as [b tbl cs]. simpl in *. f_equal.
  unfold without_session. induction tbl as [|r tbl IH]; [done|]. simpl.
  assert (String.eqb (row_id r) "" = false) as ->.
  { apply String.eqb_neq, Hrows. by left. }
  simpl. f_equal. apply IH. intros r' Hin. apply Hrows. by right.
Qed.

(** X17. An exception of the lookup by external identifier is swallowed:
    [createUser] is called as if no user existed, and with a mismatched
    state the call then fails with the 401 redirect in the backend that
    [createUser] left. *)
Theorem swallowed_lookup_error_creates_user (request : Request) (w : W)
    (tok : Token) (du : DiscordUser) (e : thrown) (userId : jsval)
    (b1 b2 b3 b4 : B) :
  fetchToken (backend w) = (Return tok, b1) →
  fetchUser tok b1 = (Return du, b2) →
  getUserByExternalId (discord_id du) b2 = (Throw e, b3) →
  createUser (discord_email du) (discord_id du) b3 = (Return userId, b4) →
  truthy userId = true →
  completeOauthLogin request w
  = (Throw (ThrownResponse (redirect "/login" 401 [])),
     mkWorld b4 (sessions w)
       (calls w ++ [Call_fetchToken; Call_fetchUser;
                    Call_getUserByExternalId (discord_id du);
                    Call_createUser (discord_email du) (discord_id du)])).
Proof.
  intros Htok Hdu Hu Hnew Hid.
  rewrite (completeOauthLogin_mismatch request w (state_always_mismatches _ _)).
  unfold resolveUserId. run.
  rewrite Htok. simpl. rewrite Hdu. simpl. rewrite Hu. simpl.
  rewrite Hnew. simpl. rewrite Hid. by rewrite <- !app_assoc.
Qed.

(** X18. A token exchange or a profile fetch that throws ends the call
    there: the thrown value is what the call throws, the user model is not
    called, and the [sessions] table is not read or changed. *)
Theorem failed_exchange_ends_login (request : Request) (w : W) (e : thrown) :
  (∀ b1, fetchToken (backend w) = (Throw e, b1) →
     completeOauthLogin request w
     = (Throw e, mkWorld b1 (sessions w) (calls w ++ [Call_fetchToken])))
  ∧ (∀ tok b1 b2,
       fetchToken (backend w) = (Return tok, b1) →
       fetchUser tok b1 = (Throw e, b2) →
       completeOauthLogin request w
       = (Throw e,
          mkWorld b2 (sessions w) (calls w ++ [Call_fetchToken; Call_fetchUser]))).
Proof.
  split.
  - intros b1 Htok. unfold completeOauthLogin, resolveUserId. run.
    by rewrite Htok.
  - intros tok b1 b2 Htok Hdu. unfold completeOauthLogin, resolveUserId. run.
    rewrite Htok. simpl. rewrite Hdu. simpl. by rewrite <- !app_assoc.
Qed.

(** X19. Unlike the lookup, [createUser] is not guarded: when it throws,
    the call throws the same value. *)
Theorem createUser_error_surfaces (request : Request) (w : W)
    (tok : Token) (du : DiscordUser) (e : thrown) (b1 b2 b3 b4 : B) :
  fetchToken (backend w) = (Return tok, b1) →
  fetchUser tok b1 = (Return du, b2) →
  getUserByExternalId (discord_id du) b2 = (Return None, b3) →
  createUser (discord_email du) (discord_id du) b3 = (Throw e, b4) →
  completeOauthLogin request w
  = (Throw e,
     mkWorld b4 (sessions w)
       (calls w ++ [Call_fetchToken; Call_fetchUser;
                    Call_getUserByExternalId (discord_id du);
                    Call_createUser (discord_email du) (discord_id du)])).
Proof.
  intros Htok Hdu Hu Hnew. unfold completeOauthLogin, resolveUserId. run.
  rewrite Htok. simpl. rewrite Hdu. simpl. rewrite Hu. simpl.
  rewrite Hnew. simpl. by rewrite <- !app_assoc.
Qed.

(** X20. When neither the lookup nor [createUser] yields a user id, the
    call fails with the 500 response that says so, whatever the request
    carries, before any session is read. *)
Theorem unresolved_user_is_internal_error (request : Request) (w : W)
    (tok : Token) (du : DiscordUser) (userId : jsval) (b1 b2 b3 b4 : B) :
  fetchToken (backend w) = (Return tok, b1) →
  fetchUser tok b1 = (Return du, b2) →
  getUserByExternalId (discord_id du) b2 = (Return None, b3) →
  createUser (discord_email du) (discord_id du) b3 = (Return userId, b4) →
  truthy userId = false →
  completeOauthLogin request w
  = (Throw (ThrownResponse no_user_response),
     mkWorld b4 (sessions w)
       (calls w ++ [Call_fetchToken; Call_fetchUser;
                    Call_getUserByExternalId (discord_id du);
                    Call_createUser (discord_email du) (discord_id du)]))
  ∧ status no_user_response = 500.
Proof.
  intros Htok Hdu Hu Hnew Hid. split; [|done].
  unfold completeOauthLogin, resolveUserId. run.
  rewrite Htok. simpl. rewrite Hdu. simpl. rewrite Hu. simpl.
  rewrite Hnew. simpl. rewrite Hid. simpl. by rewrite <- !app_assoc.
Qed.

End AuthProperties.

(** * Further properties of the setup handler *)

Section HandlerProperties.
Context {G : Type} `{!GuildsServer G}.

(** X21. The guild is registered before the options are checked: when the
    role or the channel is missing, the store is what [registerGuild] left,
    [setSettings] has not run, and the reply names the missing option. *)
Theorem handler_registers_before_validating (interaction : CommandInteraction)
    (w : BotWorld G) (g : Guild) (store : G) :
  guild interaction = Some g →
  registerGuild g (guilds w) = (Return tt, store) →
  (options_getRole interaction "moderator" = None →
   handler interaction w
   = (Return tt,
      mkBotWorld store
        (replies w ++ [something_broke (new_Error "Interaction has no role")])))
  ∧ (∀ role, options_getRole interaction "moderator" = Some role →
       options_getChannel interaction "mod-log-channel" = None →
       handler interaction w
       = (Return tt,
          mkBotWorld store
            (replies w ++ [something_broke (new_Error "Interaction has no channel")]))).
Proof.
  intros Hg Hreg. split.
  - intros Hrole. unfold handler, try_catch.
    by rewrite (handler_try_no_role interaction w g store Hg Hreg Hrole).
  - intros role Hrole Hchan. unfold handler, try_catch.
    by rewrite (handler_try_no_channel interaction w g role store Hg Hreg Hrole Hchan).
Qed.

Lemma handler_try_replies (interaction : CommandInteraction) (w : BotWorld G) :
  let '(o, w') := handler_try interaction w in
  match o with
  | Return _ =>
      replies w' = (replies w ++ ["Setup completed!"])%list
      ∧ ∃ g role channel store1,
          guild interaction = Some g
          ∧ options_getRole interaction "moderator" = Some role
          ∧ options_getChannel interaction "mod-log-channel" = Some channel
          ∧ registerGuild g (guilds w) = (Return tt, store1)
          ∧ setSettings g
              (<[SETTINGS_moderator := role_id role]>
                 (<[SETTINGS_modLog := channel_id channel]> ∅)) store1
            = (Return tt, guilds w')
  | Throw _ => replies w' = replies w
  end.
Proof.
  unfold handler_try, on_guilds, reply.
  destruct (guild interaction) as [g|]; [|done]. run.
  destruct (registerGuild g (guilds w)) as [[[]|e] store1] eqn:Hreg; simpl; [|done].
  destruct (options_getRole interaction "moderator") as [role|]; [|done].
  destruct (options_getChannel interaction "mod-log-channel") as [channel|]; [|done].
  simpl.
  destruct (setSettings g _ store1) as [[[]|e] store2] eqn:Hset; simpl; [|done].
  split; [done|]. by eexists g, role, channel, store1.
Qed.

(** X22. An invocation adds at most one reply to those the interaction
    had, and never removes or rewrites one. *)
Theorem handler_replies_at_most_once (interaction : CommandInteraction)
    (w : BotWorld G) :
  ∃ (w' : BotWorld G) (added : list string),
    handler interaction w = (Return tt, w')
    ∧ replies w' = (replies w ++ added)%list
    ∧ (List.length added ≤ 1)%nat.
Proof.
  unfold handler, try_catch. pose proof (handler_try_replies interaction w) as Htry.
  destruct (handler_try interaction w) as [[[]|e] w1].
  - destruct Htry as [Hr _]. eexists _, _. split; [done|]. split; [exact Hr|]. simpl. lia.
  - destruct e as [r|err|v]; run.
    + exists w1, []. rewrite Htry, app_nil_r. split_and!; [done..|simpl; lia].
    + eexists _, _. split; [done|]. simpl. rewrite Htry. split; [done|]. simpl. lia.
    + exists w1, []. rewrite Htry, app_nil_r. split_and!; [done..|simpl; lia].
Qed.

(** X23. The reply [Setup completed!] is sent only after both operations
    on the guild store returned: an invocation that added it carried a
    guild, a role and a channel, and the store it leaves is the one
    [setSettings] left when given the two settings. *)
Theorem success_reply_means_settings_written (interaction : CommandInteraction)
    (w w' : BotWorld G) :
  handler interaction w = (Return tt, w') →
  replies w' = (replies w ++ ["Setup completed!"])%list →
  ∃ g role channel store1,
    guild interaction = Some g
    ∧ options_getRole interaction "moderator" = Some role
    ∧ options_getChannel interaction "mod-log-channel" = Some channel
    ∧ registerGuild g (guilds w) = (Return tt, store1)
    ∧ setSettings g
        (<[SETTINGS_moderator := role_id role]>
           (<[SETTINGS_modLog := channel_id channel]> ∅)) store1
      = (Return tt, guilds w').
Proof.
  unfold handler, try_catch. pose proof (handler_try_replies interaction w) as Htry.
  destruct (handler_try interaction w) as [[[]|e] w1].
  - intros [= <-] _. by destruct Htry as [_ Hex].
  - destruct e as [r|err|v]; run; intros [= <-]; simpl; rewrite ?Htry; intros Hr.
    + apply (f_equal List.length) in Hr. rewrite length_app in Hr. simpl in Hr. lia.
    + apply app_inv_head in Hr. injection Hr as Hr. discriminate Hr.
    + apply (f_equal List.length) in Hr. rewrite length_app in Hr. simpl in Hr. lia.
Qed.

End HandlerProperties.

(** * Properties of [refreshSession] *)

Section RefreshProperties.
Context {B Token : Type} `{!Env B Token} `{!TokenClient B Token}.

(** X24. [refreshSession] never hands [parseToken] a stored token: what it
    reads under [discordToken] is [undefined] for every request and table.
    When [parseToken] throws on [undefined], every call throws that value
    and leaves the world as it was. *)
Theorem refreshSession_parses_undefined (request : Request) (w : World B) (e : thrown) :
  parseToken JUndefined = Throw e →
  refreshSession request w = (Throw e, w).
Proof.
  intros Hparse. unfold refreshSession. unfold mbind at 1, M_bind.
  rewrite getDbSession_run.
  assert (session_get "discordToken" (db_session_of request (sessions w))
          = (JUndefined, db_session_of request (sessions w))) as ->.
  { unfold db_session_of.
    destruct (String.eqb (request_session_id request) ""); [done|].
    destruct (List.find _ (sessions w)) as [r|]; [|done].
    unfold session_get, row_entries. simpl. by simplify_map_eq. }
  by rewrite Hparse.
Qed.

(** X25. When [parseToken] accepts [undefined] and the refresh returns, a
    call without a session cookie creates a row that holds the JSON text of
    the new token under [discordToken], and answers 200 with the text [OK]
    and the cookie of the new row. *)
Theorem refreshSession_creates_session (request : Request) (w : World B)
    (token newToken : Token) (b1 : B) :
  request_session_id request = "" →
  parseToken JUndefined = Return token →
  token_refresh token (backend w) = (Return newToken, b1) →
  let id := (randomUUID b1).1 in
  let cookie := mkSetCookie "__session" (CookieString id) None None in
  refreshSession request w
  = (Return (ok_response cookie),
     mkWorld (randomUUID b1).2
       (sessions w ++
        [mkSession id
           (Some (JSON_stringify
                    (<["discordToken" := JStr (JSON_stringify_token newToken)]> ∅)))
           (commit_expires None b1)])
       (calls w))
  ∧ status (ok_response cookie) = 200
  ∧ resp_body (ok_response cookie) = TextBody "OK".
Proof.
  intros Hid Hparse Hrefresh id cookie. split; [|done].
  unfold refreshSession. unfold mbind at 1, M_bind.
  rewrite getDbSession_run. unfold db_session_of. rewrite Hid. simpl.
  unfold session_get. simpl. rewrite !lookup_empty.
  rewrite Hparse. unfold on_backend, commitDbSession, createData, draw_uuid. run.
  rewrite Hrefresh. simpl. subst id cookie. by destruct (randomUUID b1).
Qed.

End RefreshProperties.

(** * Concrete runs of the further properties *)

Ltac no_row_with_id :=
  let r := fresh "r" in
  let Hin := fresh "Hin" in
  intros r Hin;
  repeat (apply elem_of_cons in Hin as [->|Hin]; [vm_compute; discriminate|]);
  by apply elem_of_nil in Hin.

(** X1 on a pending session without an id. *)
Lemma commit_new_session_witness :
  (commitDbSession Cases.unsaved (Some 3600) (Sample.world [] true)).1
  = Return (mkSetCookie "__session" (CookieString "uuid-0") (Some 3600) None)
  ∧ row_id <$> sessions (commitDbSession Cases.unsaved (Some 3600) (Sample.world [] true)).2
    = ["sess-0"; "sess-1"; "uuid-0"].
Proof.
  destruct (commit_new_session_creates_row Cases.unsaved (Some 3600)
              (Sample.world [] true) eq_refl) as [Hrun _].
  rewrite Hrun. split; reflexivity.
Defined.

(** X2 on a session with the id of the pending row. *)
Lemma commit_existing_session_witness :
  ∃ w',
    commitDbSession Cases.saved None (Sample.world [] true)
    = (Return (mkSetCookie "__session" (CookieString "sess-1") None None), w')
    ∧ row_id <$> sessions w' = ["sess-0"; "sess-1"]
    ∧ sessions w' !! 0%nat = Some Sample.expired.
Proof.
  destruct (commit_existing_session_updates_in_place Cases.saved None
              (Sample.world [] true)) as (w' & Hrun & _ & Hids & Hother & _);
    [vm_compute; discriminate|].
  exists w'. split; [exact Hrun|]. split; [exact Hids|].
  apply Hother; [reflexivity|vm_compute; discriminate].
Defined.

(** X3 on a session whose id names no row. *)
Lemma commit_unknown_session_witness :
  commitDbSession Cases.orphan (Some 3600) (Sample.world [] true)
  = (Return (mkSetCookie "__session" (CookieString "sess-9") (Some 3600) None),
     Sample.world [] true).
Proof.
  apply (commit_unknown_session_stores_nothing Cases.orphan (Some 3600)
           (Sample.world [] true)); [vm_compute; discriminate|no_row_with_id].
Defined.

(** X6 on the request that brings the new id back. *)
Lemma committed_data_witness :
  ∃ c w' s',
    commitDbSession Cases.unsaved None (Sample.world [] true) = (Return c, w')
    ∧ getDbSession (header_Cookie Cases.returning) w' = (Return s', w')
    ∧ (session_get "state" s').1 = JUndefined.
Proof.
  destruct (committed_data_is_not_read_back Cases.unsaved None
              (Sample.world [] true) Cases.returning)
    as (c & w' & s' & Hrun & _ & Hget & _ & Hother);
    [reflexivity|vm_compute; discriminate|no_row_with_id|reflexivity|].
  exists c, w', s'. split; [exact Hrun|]. split; [exact Hget|].
  apply Hother; discriminate.
Defined.

(** X8 on a request without cookies. *)
Lemma getUser_anonymous_witness :
  getUser Sample.fresh (Sample.world [Sample.alice] true)
  = (Return None, Sample.world [Sample.alice] true).
Proof.
  apply (getUser_without_user_id Sample.fresh (Sample.world [Sample.alice] true)).
  vm_compute. reflexivity.
Defined.

(** X9 on the cookie session of a user of the site. *)
Lemma signed_in_user_witness :
  requireUser (Sample.signed_in "u-1") (Sample.world [Sample.alice] true)
  = (Return Sample.alice,
     mkWorld (Sample.site [Sample.alice] true) [Sample.expired; Sample.pending]
       [Call_getUserById (JStr "u-1")]).
Proof.
  apply (signed_in_user_is_resolved (Sample.signed_in "u-1")
           (Sample.world [Sample.alice] true) (JStr "u-1") Sample.alice
           (Sample.site [Sample.alice] true));
    [vm_compute; reflexivity|reflexivity|reflexivity].
Defined.

(** X10 on a cookie session whose user id is the empty string. *)
Lemma falsy_user_id_witness :
  requireUser (Sample.signed_in "") (Sample.world [Sample.alice] true)
  = (Throw (ThrownResponse (redirect "/login?redirectTo=%2Fdashboard" 302 [])),
     Sample.world [Sample.alice] true)
  ∧ getUser (Sample.signed_in "") (Sample.world [Sample.alice] true)
    = (Throw (ThrownResponse logout_response),
       mkWorld (Sample.site [Sample.alice] true) [Sample.expired]
         [Call_getUserById (JStr "")]).
Proof.
  apply (falsy_user_id_splits_getUser_and_requireUser (Sample.signed_in "")
           (Sample.world [Sample.alice] true) (JStr "")
           (Sample.site [Sample.alice] true));
    [vm_compute; reflexivity|discriminate|reflexivity|reflexivity].
Defined.

(** X11 on a site whose user table cannot be reached. *)
Lemma lookup_error_witness :
  requireUser (Env0 := Outage.env) (Sample.signed_in "u-1")
    (Sample.world [Sample.alice] true)
  = (Throw (ThrownError Outage.unreachable),
     mkWorld (Sample.site [Sample.alice] true) [Sample.expired; Sample.pending]
       [Call_getUserById (JStr "u-1")]).
Proof.
  apply (lookup_error_surfaces (Env0 := Outage.env) (Sample.signed_in "u-1")
           (Sample.world [Sample.alice] true) (JStr "u-1")
           (ThrownError Outage.unreachable) (Sample.site [Sample.alice] true));
    [vm_compute; reflexivity|reflexivity|reflexivity].
Defined.

(** X12 on a target that holds a query of its own. *)
Lemma login_redirect_target_witness :
  requireUserId Sample.fresh (Some "/guilds?tab=1&next=/a b") (Sample.world [] true)
  = (Throw (ThrownResponse
              (redirect "/login?redirectTo=%2Fguilds%3Ftab%3D1%26next%3D%2Fa+b" 302 [])),
     Sample.world [] true).
Proof.
  apply (login_redirect_carries_the_target Sample.fresh "/guilds?tab=1&next=/a b"
           (Sample.world [] true)).
  vm_compute. reflexivity.
Defined.

(** X13 on a request without cookies. *)
Lemma initOauthLogin_fresh_witness :
  (initOauthLogin Sample.fresh "/" (Sample.world [] true)).1
  = Return
      (redirect "https://discord.com/api/oauth2/authorize?redirect_uri=%2F&state=uuid-0"
         302
         [Set_Cookie (mkSetCookie "__session" (CookieString "uuid-1") (Some 3600) None)]).
Proof.
  rewrite (initOauthLogin_creates_pending_session Sample.fresh "/"
             (Sample.world [] true) eq_refl).
  vm_compute. reflexivity.
Defined.

(** X14 on the request that holds the pending session. *)
Lemma initOauthLogin_reuse_witness :
  ∃ w',
    (initOauthLogin Sample.callback "/" (Sample.world [] true)).2 = w'
    ∧ row_id <$> sessions w' = ["sess-0"; "sess-1"].
Proof.
  destruct (initOauthLogin_reuses_session_id Sample.callback "/"
              (Sample.world [] true)) as (w' & Hrun & Hids & _);
    [vm_compute; discriminate|].
  exists w'. rewrite Hrun. split; [reflexivity|exact Hids].
Defined.

(** X16 on a request without cookies. *)
Lemma logout_without_cookie_witness :
  logout Sample.fresh (Sample.world [Sample.alice] true)
  = (Return logout_response, Sample.world [Sample.alice] true).
Proof.
  apply (logout_without_cookie Sample.fresh (Sample.world [Sample.alice] true));
    [reflexivity|no_row_with_id].
Defined.

(** X17 on a site that knows the remote user but cannot look her up: the
    user table ends with a second record for the same external id. *)
Lemma swallowed_lookup_error_witness :
  ∃ w',
    completeOauthLogin (Env0 := Outage.env) Sample.callback
      (Sample.world [Sample.alice] true)
    = (Throw (ThrownResponse (redirect "/login" 401 [])), w')
    ∧ Site.users (backend w')
      = [Sample.alice; mkUser "uuid-0" "alice@example.org" "d-100"].
Proof.
  eexists. split.
  - apply (swallowed_lookup_error_creates_user (Env0 := Outage.env) Sample.callback
             (Sample.world [Sample.alice] true) "token-1" Sample.profile
             (ThrownError Outage.unreachable) (JStr "uuid-0")
             (Sample.site [Sample.alice] true) (Sample.site [Sample.alice] true)
             (Sample.site [Sample.alice] true)
             (Site.mkBackend
                [Sample.alice; mkUser "uuid-0" "alice@example.org" "d-100"] true
                (Return "token-1") (Return Sample.profile) 1 1700000000000));
      [reflexivity|reflexivity|reflexivity|vm_compute; reflexivity|reflexivity].
  - reflexivity.
Defined.

(** X19 on a site whose user table cannot be written. *)
Lemma createUser_error_witness :
  completeOauthLogin (Env0 := ReadOnly.env) Sample.callback (Sample.world [] true)
  = (Throw (ThrownError ReadOnly.refused),
     mkWorld (Sample.site [] true) [Sample.expired; Sample.pending]
       [Call_fetchToken; Call_fetchUser; Call_getUserByExternalId "d-100";
        Call_createUser "alice@example.org" "d-100"]).
Proof.
  apply (createUser_error_surfaces (Env0 := ReadOnly.env) Sample.callback
           (Sample.world [] true) "token-1" Sample.profile
           (ThrownError ReadOnly.refused)
           (Sample.site [] true) (Sample.site [] true) (Sample.site [] true)
           (Sample.site [] true));
    reflexivity.
Defined.

(** X20 on a site that cannot create the user. *)
Lemma unresolved_user_witness :
  (completeOauthLogin Sample.callback (Sample.world [] false)).1
  = Throw (ThrownResponse no_user_response).
Proof.
  destruct (unresolved_user_is_internal_error Sample.callback (Sample.world [] false)
              "token-1" Sample.profile JUndefined
              (Sample.site [] false) (Sample.site [] false) (Sample.site [] false)
              (Sample.site [] false)) as [Hrun _];
    [reflexivity|reflexivity|reflexivity|reflexivity|reflexivity|].
  by rewrite Hrun.
Defined.

(** X21 on an interaction that selects no role: the guild is registered. *)
Lemma handler_no_role_witness :
  handler Cases.no_role (mkBotWorld (∅ : gmap string (gmap string string)) [])
  = (Return tt,
     mkBotWorld {[ "guild-1" := ∅ ]}
       ["Something broke:
```
Error: Interaction has no role
```
"]).
Proof.
  apply (handler_registers_before_validating Cases.no_role (mkBotWorld ∅ [])
           (mkGuild "guild-1") {[ "guild-1" := ∅ ]}); reflexivity.
Defined.

(** X23 on the setup with role 123 and channel 456. *)
Lemma success_reply_witness :
  ∃ g role channel,
    guild Sample.setup_123_456 = Some g
    ∧ options_getRole Sample.setup_123_456 "moderator" = Some role
    ∧ options_getChannel Sample.setup_123_456 "mod-log-channel" = Some channel.
Proof.
  destruct (success_reply_means_settings_written Sample.setup_123_456
              (mkBotWorld (∅ : gmap string (gmap string string)) [])
              (mkBotWorld
                 {[ "guild-1" := {[ "moderator" := "123"; "modLog" := "456" ]} ]}
                 ["Setup completed!"]))
    as (g & role & channel & _ & Hg & Hrole & Hchan & _);
    [vm_compute; reflexivity|reflexivity|].
  by exists g, role, channel.
Defined.

(** X24 on a token client that rejects [undefined], with a row in place. *)
Lemma refreshSession_failure_witness :
  refreshSession Sample.callback (Sample.world [] true)
  = (Throw (ThrownError (mkError "SyntaxError" "Unexpected token u in JSON")),
     Sample.world [] true).
Proof.
  apply (refreshSession_parses_undefined Sample.callback (Sample.world [] true)).
  reflexivity.
Defined.

(** X25 on a token client that accepts [undefined]. *)
Lemma refreshSession_success_witness :
  (refreshSession (TokenClient0 := Tokens.lenient) Sample.fresh
     (Sample.world [] true)).1
  = Return (ok_response (mkSetCookie "__session" (CookieString "uuid-0") None None)).
Proof.
  destruct (refreshSession_creates_session (TokenClient0 := Tokens.lenient)
              Sample.fresh (Sample.world [] true) "" "+" (Sample.site [] true))
    as [Hrun _]; [reflexivity|reflexivity|reflexivity|].
  by rewrite Hrun.
Defined.
